(** * scripts/statistics.py: admitted-proof badge generator

    A shallow embedding of the three functions of [scripts/statistics.py]
    ([collect], [pick_colour], [main]) and the properties of them stated in
    the specification.

    - Python integers are [Z].
    - Python floats are IEEE-754 binary64 numbers.  [pick_colour] only ever
      multiplies one of the literals [0.2], [0.1] by an integer and compares
      an integer with the product, so floats are modelled exactly, as a
      mantissa and a binary exponent, with round-to-nearest-even written out
      on integers.
    - Exceptions are an error monad; the file system and the outbound HTTP
      traffic are an explicit state; the external programs ([grep], the badge
      service) are oracles of the environment. *)

From Stdlib Require Import ZArith Lia Bool List String Ascii DecimalString.
From Stdlib Require Import Strings.Byte.
From Stdlib Require DecimalPos DecimalZ.
From stdpp Require Import base option gmap strings.

Open Scope Z_scope.

(** ** Exceptions *)

Inductive exn : Type :=
  | OverflowError                      (* int too large to convert to float *)
  | IndexError                         (* str.format: not enough arguments *)
  | CalledProcessError (status : Z)    (* check_output: non-zero exit status *)
  | FileNotFoundError                  (* check_output: no such program *)
  | PermissionError                    (* open: file cannot be written *)
  | URLError                           (* urlopen: no connection *)
  | HTTPError (code : Z)               (* urlopen: 4xx / 5xx answer *)
  | KeyboardInterrupt.

Inductive result (A : Type) : Type :=
  | Ok (a : A)
  | Raise (e : exn).
Arguments Ok {A} a.
Arguments Raise {A} e.

#[global] Instance result_ret : MRet result := λ A a, Ok a.
#[global] Instance result_bind : MBind result := λ A B f r,
  match r with
  | Ok a => f a
  | Raise e => Raise e
  end.

(** [try: body except: handler], with a bare [except] clause: every
    exception of the body is caught. *)
Definition try_except {A : Type} (body : result A) (handler : result A) : result A :=
  match body with
  | Ok a => Ok a
  | Raise _ => handler
  end.

(** ** Binary64 floats *)

Module PyFloat.

(** Number of significant bits, and the exponent bound: every finite
    double is below [2 ^ emax] in absolute value. *)
Definition prec : Z := 53.
Definition emax : Z := 1024.
Definition emin : Z := -1022.

(** Number of low bits that a non-negative integer [P] loses when it is
    cut to [prec] significant bits. *)
Definition shift (P : Z) : Z := Z.max 0 (Z.log2 P + 1 - prec).

(** Round-to-nearest, ties to even mantissa, of a non-negative integer to
    [prec] significant bits. *)
Definition round_pos (P : Z) : Z :=
  let s := shift P in
  let q := P / 2 ^ s in
  let r := P mod 2 ^ s in
  let half := 2 ^ (s - 1) in
  if s =? 0 then P
  else if (half <? r) || ((r =? half) && Z.odd q) then (q + 1) * 2 ^ s
  else q * 2 ^ s.

Definition round_nearest_even (z : Z) : Z := Z.sgn z * round_pos (Z.abs z).

(** A finite double: the number [mant * 2 ^ expo], where [mant] has at most
    [prec] significant bits. *)
Record float : Type := mk_float { mant : Z; expo : Z }.

(** The literals of [pick_colour].  [0.2] denotes the double nearest to
    1/5, which is 3602879701896397 / 2^54, and [0.1] the double nearest to
    1/10, which is half of it. *)
Definition lit_0_2 : float := mk_float 3602879701896397 (-54).
Definition lit_0_1 : float := mk_float 3602879701896397 (-55).

(** Conversion of a Python integer, as done for the integer operand of
    [float * int]: correctly rounded, [OverflowError] when the rounded
    value is no finite double. *)
Definition float_of_int (m : Z) : result float :=
  let r := round_nearest_even m in
  if Z.abs r <? 2 ^ emax then Ok (mk_float r 0) else Raise OverflowError.

(** Product of two doubles: the exact product, rounded.  (The products of
    [pick_colour] are zero or in the normal range, see [mul_int_normal], so
    neither gradual underflow nor overflow to infinity is written out.) *)
Definition fmul (x y : float) : float :=
  mk_float (round_nearest_even (mant x * mant y)) (expo x + expo y).

(** [x * m] for a float [x] and an integer [m]. *)
Definition mul_int (x : float) (m : Z) : result float :=
  y ← float_of_int m; mret (fmul x y).

(** [n > x] for an integer [n] and a float [x]: Python compares the two
    numbers exactly, without converting [n]. *)
Definition int_gt (n : Z) (x : float) : bool :=
  if 0 <=? expo x then mant x * 2 ^ expo x <? n
  else mant x <? n * 2 ^ (- expo x).

(** The value of [x] is zero or a normal number. *)
Definition normal_or_zero (x : float) : Prop :=
  mant x = 0 ∨ emin <= Z.log2 (Z.abs (mant x)) + expo x < emax.

End PyFloat.

(** ** pick_colour *)

Definition pick_colour (n m : Z) : result string :=
  x ← PyFloat.mul_int PyFloat.lit_0_2 m;
  if PyFloat.int_gt n x then mret "red"%string
  else
    y ← PyFloat.mul_int PyFloat.lit_0_1 m;
    if PyFloat.int_gt n y then mret "orange"%string
    else if n =? 0 then mret "brightgreen"%string
    else mret "yellow"%string.

(** The tiering rule as the specification words it, on exact rationals:
    [n > 0.2 * m] is [5 * n > m] and [n > 0.1 * m] is [10 * n > m]. *)
Definition pick_colour_exact (n m : Z) : string :=
  if m <? 5 * n then "red"%string
  else if m <? 10 * n then "orange"%string
  else if n =? 0 then "brightgreen"%string
  else "yellow"%string.

(** ** Bytes and strings *)

Definition bytes : Type := list byte.

(** [bytes.splitlines()]: lines end at LF, CR or CR LF; the line ends are
    dropped and no empty line is reported after a final line end. [cur] is
    the current line, reversed. *)
Fixpoint splitlines_from (cur : bytes) (bs : bytes) : list bytes :=
  match bs with
  | [] => match cur with [] => [] | _ => [rev cur] end
  | b :: rest =>
      if Byte.eqb b x0a then rev cur :: splitlines_from [] rest
      else if Byte.eqb b x0d then
        match rest with
        | b' :: rest' =>
            if Byte.eqb b' x0a then rev cur :: splitlines_from [] rest'
            else rev cur :: splitlines_from [] rest
        | [] => [rev cur]
        end
      else splitlines_from (b :: cur) rest
  end.

Definition splitlines (bs : bytes) : list bytes := splitlines_from [] bs.

Definition len {A : Type} (l : list A) : Z := Z.of_nat (length l).

(** [str(n)] for an integer. *)
Definition str (n : Z) : string := NilZero.string_of_int (Z.to_int n).

(** [template.format(args...)] for templates whose only replacement fields
    are the automatically numbered [{}]. *)
Fixpoint format (template : string) (args : list string) : result string :=
  match template with
  | EmptyString => Ok EmptyString
  | String c rest =>
      match rest with
      | String c' rest' =>
          if (Ascii.eqb c "{" && Ascii.eqb c' "}")%bool then
            match args with
            | a :: args' => s ← format rest' args'; mret (a +:+ s)
            | [] => Raise IndexError
            end
          else s ← format rest args; mret (String c s)
      | EmptyString => Ok (String c EmptyString)
      end
  end.

(** [sub in s]. *)
Definition contains (sub s : string) : Prop :=
  ∃ pre post : string, s = pre +:+ sub +:+ post.

(** ** The environment and the state *)

Record request : Type := mk_request {
  req_url : string;
  req_headers : list (string * string)
}.

(** What the script cannot see through: the programs it starts, the badge
    service, and which files may be opened for writing. *)
Record env : Type := mk_env {
  check_output : list string → result bytes;
  urlopen_read : request → result bytes;
  can_write : string → bool
}.

(** What the script changes: the files, and the requests sent so far. *)
Record world : Type := mk_world {
  files : gmap string bytes;
  sent : list request
}.

(** ** collect *)

Definition collect (E : env) (d : string) : result (Z * Z * Z) :=
  n_admitted ← try_except
    (out ← check_output E ["grep"; "-r"; "-E"; "Admitted"; d]%string;
     mret (len (splitlines out)))
    (mret 0);
  n_theorems ← try_except
    (out ← check_output E ["grep"; "-r"; "-E"; "Theorem|Lemma|Remark"; d]%string;
     mret (len (splitlines out)))
    (mret 0);
  n_qed ← try_except
    (out ← check_output E ["grep"; "-r"; "-E"; "Qed|Defined"; d]%string;
     mret (len (splitlines out)))
    (mret 0);
  mret (n_admitted, n_theorems, n_qed).

(** ** main *)

(** Computations that read the environment, change the world and may
    raise. *)
Definition io (A : Type) : Type := world → result A * world.

#[global] Instance io_ret : MRet io := λ A a w, (Ok a, w).
#[global] Instance io_bind : MBind io := λ A B k c w,
  match c w with
  | (Ok a, w') => k a w'
  | (Raise e, w') => (Raise e, w')
  end.

(** A computation that only returns or raises. *)
Definition lift {A : Type} (r : result A) : io A := λ w, (r, w).

(** [open(path, "wb")]: the file is created, or truncated when it exists. *)
Definition open_wb (E : env) (path : string) : io string := λ w,
  if can_write E path
  then (Ok path, mk_world (<[path := []]> (files w)) (sent w))
  else (Raise PermissionError, w).

(** [f.write(data)] on a file opened by [open_wb], followed by the
    [close] of the [with] block. *)
Definition write (f : string) (data : bytes) : io unit := λ w,
  (Ok tt, mk_world (<[f := default [] (files w !! f) ++ data]> (files w)) (sent w)).

(** [urlopen(req)] and [r.read()]: the request leaves, the answer is the
    oracle's. *)
Definition urlopen (E : env) (req : request) : io bytes := λ w,
  (urlopen_read E req, mk_world (files w) (sent w ++ [req])).

Definition main (E : env) (d : string) : io unit :=
  '(n_admitted, n_theorems, _) ← lift (collect E d);
  colour ← lift (pick_colour n_admitted n_theorems);
  url ← lift (format "https://img.shields.io/badge/admitted%20proofs-{}-{}?style=flat"
                     [str n_admitted; colour]);
  let req := mk_request url [("User-Agent", "Mozilla/5.0")]%string in
  f ← open_wb E "admitted.svg";
  body ← urlopen E req;
  write f body.

(** The badge URL as the specification words it: the fixed prefix, the
    admitted count in decimal, a dash, the colour tag, the style suffix. *)
Definition badge_url (n_admitted : Z) (colour : string) : string :=
  "https://img.shields.io/badge/admitted%20proofs-" +:+ str n_admitted
    +:+ "-" +:+ colour +:+ "?style=flat".

(** ** The script *)


(** ** Output of the searches *)

(** A byte that ends no line. *)
Definition inner_byte (b : byte) : Prop := b ≠ x0a ∧ b ≠ x0d.

(** What [grep] writes for the matching lines [ls]: every line, followed by
    a line feed. *)
Definition printed (ls : list bytes) : bytes :=
  concat (map (λ l, l ++ [x0a]) ls).

(** ** Example environments *)

Module Examples.

(** [grep] finds nothing: exit status 1 for every pattern. *)
Definition grep_nothing : list string → result bytes :=
  λ _, Raise (CalledProcessError 1).

(** [grep] finds two lines, "a.v:Qed." and "b.v:Defined.", for the
    pattern of finished proofs and nothing for the other patterns. *)
Definition grep_two_qed : list string → result bytes :=
  λ args,
    match args with
    | [_; _; _; pattern; _] =>
        if String.eqb pattern "Qed|Defined"
        then Ok (list_byte_of_string "a.v:Qed." ++ [x0a]
                 ++ list_byte_of_string "b.v:Defined." ++ [x0a])
        else Raise (CalledProcessError 1)
    | _ => Raise (CalledProcessError 2)
    end.

(** [grep] over a project of two files: one admitted proof, two
    statements, one finished proof. *)
Definition grep_small_project : list string → result bytes :=
  λ args,
    match args with
    | [_; _; _; pattern; _] =>
        if String.eqb pattern "Admitted"
        then Ok (list_byte_of_string "b.v:Admitted." ++ [x0a])
        else if String.eqb pattern "Theorem|Lemma|Remark"
        then Ok (list_byte_of_string "a.v:Lemma a : True." ++ [x0a]
                 ++ list_byte_of_string "b.v:Theorem b : False." ++ [x0a])
        else if String.eqb pattern "Qed|Defined"
        then Ok (list_byte_of_string "a.v:Qed." ++ [x0a])
        else Raise (CalledProcessError 1)
    | _ => Raise (CalledProcessError 2)
    end.

(** No [grep] program at all. *)
Definition grep_missing : list string → result bytes :=
  λ _, Raise FileNotFoundError.

Definition svg : bytes := list_byte_of_string "<svg/>".

(** The badge service answers every request with the same image. *)
Definition online (grep : list string → result bytes) : env :=
  mk_env grep (λ _, Ok svg) (λ _, true).

(** The badge service cannot be reached. *)
Definition offline (grep : list string → result bytes) : env :=
  mk_env grep (λ _, Raise URLError) (λ _, true).

(** A working directory with an older badge in it. *)
Definition old_badge : world :=
  mk_world {[ "admitted.svg"%string := list_byte_of_string "<svg>old</svg>" ]} [].

Definition empty_dir : world := mk_world ∅ [].

End Examples.

(** * Properties *)

(** ** Rounding to 53 significant bits *)

Module PyFloatFacts.
Import PyFloat.

Lemma shift_nonneg (P : Z) : 0 <= shift P.
Proof. unfold shift. lia. Qed.

Lemma shift_zero (P : Z) : 0 <= P < 2 ^ 53 → shift P = 0.
Proof.
  intros [H0 H1]. unfold shift, prec.
  destruct (Z.eq_dec P 0) as [->|Hne]; [reflexivity|].
  assert (Z.log2 P < 53) by (apply Z.log2_lt_pow2; lia).
  lia.
Qed.

Lemma shift_bounds (P : Z) :
  2 ^ 53 <= P → 1 <= shift P ∧ 2 ^ (52 + shift P) <= P < 2 ^ (53 + shift P).
Proof.
  intros H. assert (0 < P) by lia.
  assert (53 <= Z.log2 P) by (apply Z.log2_le_pow2; lia).
  pose proof (Z.log2_spec P ltac:(lia)) as [L U].
  unfold shift, prec.
  replace (Z.max 0 (Z.log2 P + 1 - 53)) with (Z.log2 P - 52) by lia.
  replace (52 + (Z.log2 P - 52)) with (Z.log2 P) by lia.
  replace (53 + (Z.log2 P - 52)) with (Z.succ (Z.log2 P)) by lia.
  lia.
Qed.

(** Below [2 ^ 53] nothing is lost. *)
Lemma round_pos_small (P : Z) : 0 <= P < 2 ^ 53 → round_pos P = P.
Proof.
  intros H. unfold round_pos. rewrite (shift_zero P H). reflexivity.
Qed.

(** From [2 ^ 53] on, [round_pos P] is one of the two multiples of
    [2 ^ shift P] around [P], at distance at most [2 ^ (shift P - 1)]. *)
Lemma round_pos_large (P : Z) :
  2 ^ 53 <= P →
  let s := shift P in
  let q := P / 2 ^ s in
  let r := P mod 2 ^ s in
  (round_pos P = q * 2 ^ s ∧ r <= 2 ^ (s - 1) ∧ (r = 2 ^ (s - 1) → Z.odd q = false))
  ∨ (round_pos P = (q + 1) * 2 ^ s ∧ 2 ^ (s - 1) <= r ∧ (r = 2 ^ (s - 1) → Z.odd q = true)).
Proof.
  intros H s q r. destruct (shift_bounds P H) as [Hs _].
  unfold round_pos. fold s. fold q. fold r.
  destruct (Z.eqb_spec s 0) as [E|_]; [lia|].
  destruct (Z.ltb_spec (2 ^ (s - 1)) r) as [Hlt|Hge]; cbn [orb].
  - right. split; [reflexivity|]. split; [lia|]. intros; lia.
  - destruct (Z.eqb_spec r (2 ^ (s - 1))) as [Heq|Hne]; cbn [andb].
    + destruct (Z.odd q) eqn:Hodd.
      * right. split; [reflexivity|]. split; [lia|]. auto.
      * left. split; [reflexivity|]. split; [lia|]. auto.
    + left. split; [reflexivity|]. split; [lia|]. intros; lia.
Qed.

Lemma pow2_split (s : Z) : 1 <= s → 2 ^ s = 2 * 2 ^ (s - 1).
Proof.
  intros H. replace s with (Z.succ (s - 1)) at 1 by lia.
  apply Z.pow_succ_r. lia.
Qed.

Lemma pow2_pos (s : Z) : 0 <= s → 0 < 2 ^ s.
Proof. intros. apply Z.pow_pos_nonneg; lia. Qed.

Lemma pow2_mono (a b : Z) : 0 <= a <= b → 2 ^ a <= 2 ^ b.
Proof. intros. apply Z.pow_le_mono_r; lia. Qed.

(** The quotient of the division in [round_pos] is a 53-bit mantissa. *)
Lemma quotient_bounds (P : Z) :
  2 ^ 53 <= P →
  let s := shift P in
  2 ^ 52 <= P / 2 ^ s < 2 ^ 53 ∧ P = P / 2 ^ s * 2 ^ s + P mod 2 ^ s
  ∧ 0 <= P mod 2 ^ s < 2 ^ s.
Proof.
  intros H s. destruct (shift_bounds P H) as [Hs [L U]]. fold s in Hs, L, U.
  pose proof (pow2_pos s ltac:(lia)) as Hp.
  rewrite Z.pow_add_r in L, U by lia.
  pose proof (Z.div_mod P (2 ^ s) ltac:(lia)) as HP.
  pose proof (Z.mod_pos_bound P (2 ^ s) Hp) as Hr.
  repeat split; try lia.
  - apply Z.div_le_lower_bound; lia.
  - apply Z.div_lt_upper_bound; lia.
Qed.

Lemma round_pos_range (P : Z) :
  2 ^ 53 <= P →
  let s := shift P in
  P / 2 ^ s * 2 ^ s <= round_pos P <= (P / 2 ^ s + 1) * 2 ^ s.
Proof.
  intros H s. destruct (shift_bounds P H) as [Hs _]. fold s in Hs.
  pose proof (pow2_pos s ltac:(lia)).
  destruct (round_pos_large P H) as [[-> _]|[-> _]]; fold s; lia.
Qed.

Lemma round_pos_window (P : Z) :
  2 ^ 53 <= P → 2 ^ (52 + shift P) <= round_pos P <= 2 ^ (53 + shift P).
Proof.
  intros H. destruct (shift_bounds P H) as [Hs _].
  destruct (quotient_bounds P H) as [[Hq1 Hq2] _].
  pose proof (round_pos_range P H) as [L U]. cbv zeta in *.
  pose proof (pow2_pos (shift P) ltac:(lia)).
  rewrite !Z.pow_add_r by lia. nia.
Qed.

Lemma round_pos_nonneg (P : Z) : 0 <= P → 0 <= round_pos P.
Proof.
  intros H. destruct (Z.lt_ge_cases P (2 ^ 53)) as [Hs|Hl].
  - rewrite round_pos_small; lia.
  - pose proof (round_pos_window P Hl) as [L _].
    pose proof (pow2_pos (52 + shift P)). pose proof (shift_nonneg P). lia.
Qed.

(** The rounding error is at most half a unit in the last place. *)
Lemma round_pos_error (P : Z) :
  2 ^ 53 <= P → Z.abs (round_pos P - P) <= 2 ^ (shift P - 1).
Proof.
  intros H. destruct (shift_bounds P H) as [Hs _].
  destruct (quotient_bounds P H) as (_ & HP & Hr). cbv zeta in *.
  pose proof (pow2_split (shift P) Hs) as H2.
  destruct (round_pos_large P H) as [(E & Hh & _)|(E & Hh & _)];
    cbv zeta in *; rewrite E; lia.
Qed.

Lemma round_pos_error_below (P k : Z) :
  0 <= P < 2 ^ (53 + k) → 1 <= k → round_pos P <= P + 2 ^ (k - 1).
Proof.
  intros [H0 HP] Hk.
  pose proof (pow2_pos (k - 1) ltac:(lia)).
  destruct (Z.lt_ge_cases P (2 ^ 53)) as [Hs|Hl].
  - rewrite round_pos_small; lia.
  - destruct (shift_bounds P Hl) as [Hs [L _]].
    assert (shift P <= k).
    { destruct (Z.le_gt_cases (shift P) k) as [|Hgt]; [assumption|].
      pose proof (pow2_mono (53 + k) (52 + shift P) ltac:(lia)). lia. }
    pose proof (round_pos_error P Hl).
    pose proof (pow2_mono (shift P - 1) (k - 1) ltac:(lia)). lia.
Qed.

Lemma shift_mono (P Q : Z) : 0 <= P <= Q → shift P <= shift Q.
Proof.
  intros H. unfold shift. pose proof (Z.log2_le_mono P Q ltac:(lia)). lia.
Qed.

(** Rounding is monotone. *)
Lemma round_pos_mono (P Q : Z) : 0 <= P <= Q → round_pos P <= round_pos Q.
Proof.
  intros [H0 HPQ].
  destruct (Z.lt_ge_cases Q (2 ^ 53)) as [HQs|HQl].
  { rewrite !round_pos_small; lia. }
  destruct (shift_bounds Q HQl) as [HsQ [LQ UQ]].
  pose proof (round_pos_window Q HQl) as [WQ _].
  destruct (Z.lt_ge_cases P (2 ^ 53)) as [HPs|HPl].
  { rewrite (round_pos_small P) by lia.
    pose proof (pow2_mono 53 (52 + shift Q) ltac:(lia)). lia. }
  destruct (shift_bounds P HPl) as [HsP [LP UP]].
  pose proof (shift_mono P Q ltac:(lia)) as Hs.
  destruct (Z.eq_dec (shift P) (shift Q)) as [Es|Ns].
  - destruct (quotient_bounds P HPl) as (_ & EP & RP).
    destruct (quotient_bounds Q HQl) as (_ & EQ & RQ).
    pose proof (round_pos_range P HPl) as [_ UPr].
    pose proof (round_pos_range Q HQl) as [LQr _].
    cbv zeta in *. rewrite <- Es in *.
    set (s := shift P) in *.
    pose proof (pow2_pos s ltac:(lia)) as Hp.
    assert (P / 2 ^ s <= Q / 2 ^ s) as Hq by (apply Z.div_le_mono; lia).
    destruct (Z.eq_dec (P / 2 ^ s) (Q / 2 ^ s)) as [Eq|Nq].
    + assert (P mod 2 ^ s <= Q mod 2 ^ s) by lia.
      destruct (round_pos_large P HPl) as [(E1 & _)|(E1 & Hh1 & Ho1)];
      destruct (round_pos_large Q HQl) as [(E2 & Hh2 & Ho2)|(E2 & _)];
        cbv zeta in *; rewrite <- ?Es in *; fold s in E1, E2 |- *;
        rewrite E1, E2, <- ?Eq; try lia.
      fold s in Hh1, Ho1, Hh2, Ho2.
      assert (P mod 2 ^ s = 2 ^ (s - 1)) as A1 by lia.
      assert (Q mod 2 ^ s = 2 ^ (s - 1)) as A2 by lia.
      specialize (Ho1 A1). specialize (Ho2 A2). rewrite <- Eq in Ho2. congruence.
    + nia.
  - pose proof (round_pos_window P HPl) as [_ WP].
    pose proof (pow2_mono (53 + shift P) (52 + shift Q) ltac:(lia)). lia.
Qed.

(** Numbers with at most 53 significant bits are not changed. *)
Lemma round_pos_mantissa (a k : Z) :
  0 <= a < 2 ^ 53 → 0 <= k → round_pos (a * 2 ^ k) = a * 2 ^ k.
Proof.
  intros Ha Hk. set (P := a * 2 ^ k).
  pose proof (pow2_pos k Hk) as Hpk.
  destruct (Z.lt_ge_cases P (2 ^ 53)) as [HPs|HPl].
  { apply round_pos_small. unfold P. nia. }
  destruct (shift_bounds P HPl) as [Hs [L U]].
  destruct (quotient_bounds P HPl) as (_ & EP & RP).
  cbv zeta in *. set (s := shift P) in *.
  pose proof (pow2_pos s ltac:(lia)) as Hps.
  destruct (Z.le_gt_cases s k) as [Hsk|Hks].
  - assert (P mod 2 ^ s = 0) as Hr.
    { unfold P. replace k with ((k - s) + s) by lia.
      rewrite Z.pow_add_r by lia. rewrite Z.mul_assoc.
      apply Z.mod_mul. lia. }
    destruct (round_pos_large P HPl) as [(E & _)|(E & Hh & _)];
      cbv zeta in *; fold s in E |- *.
    + lia.
    + fold s in Hh. pose proof (pow2_pos (s - 1) ltac:(lia)). lia.
  - exfalso.
    assert (P < 2 ^ (53 + k)).
    { unfold P. rewrite Z.pow_add_r by lia. nia. }
    pose proof (pow2_mono (53 + k) (52 + s) ltac:(lia)). lia.
Qed.

Lemma round_pos_representable (a k : Z) :
  0 <= a <= 2 ^ 53 → 0 <= k → round_pos (a * 2 ^ k) = a * 2 ^ k.
Proof.
  intros Ha Hk. destruct (Z.eq_dec a (2 ^ 53)) as [->|Na].
  - replace (2 ^ 53 * 2 ^ k) with (2 ^ 52 * 2 ^ (k + 1)).
    + apply round_pos_mantissa; lia.
    + rewrite (Z.pow_add_r 2 k 1) by lia. lia.
  - apply round_pos_mantissa; lia.
Qed.

(** Rounding does not cross a representable number. *)
Lemma round_pos_ge (a k P : Z) :
  0 <= a <= 2 ^ 53 → 0 <= k → a * 2 ^ k <= P → a * 2 ^ k <= round_pos P.
Proof.
  intros Ha Hk HP. rewrite <- (round_pos_representable a k Ha Hk).
  apply round_pos_mono. pose proof (pow2_pos k Hk). nia.
Qed.

Lemma round_pos_le (a k P : Z) :
  0 <= a <= 2 ^ 53 → 0 <= k → 0 <= P <= a * 2 ^ k → round_pos P <= a * 2 ^ k.
Proof.
  intros Ha Hk HP. rewrite <- (round_pos_representable a k Ha Hk).
  apply round_pos_mono. lia.
Qed.

Lemma round_nearest_even_nonneg (z : Z) :
  0 <= z → round_nearest_even z = round_pos z.
Proof.
  intros H. unfold round_nearest_even.
  destruct (Z.eq_dec z 0) as [->|Hz]; [reflexivity|].
  rewrite Z.sgn_pos, Z.abs_eq by lia. lia.
Qed.

(** The window of [P] determines what is cut off. *)
Lemma shift_window (P k : Z) :
  1 <= k → 2 ^ (52 + k) <= P < 2 ^ (53 + k) → shift P = k.
Proof.
  intros Hk [L U]. unfold shift, prec.
  assert (Z.log2 P = 52 + k) as ->.
  { apply Z.log2_unique; [lia|].
    replace (Z.succ (52 + k)) with (53 + k) by lia. lia. }
  lia.
Qed.

(** Above the midpoint below a representable number, rounding goes up to
    that number. *)
Lemma round_pos_round_up (a k P : Z) :
  2 ^ 52 < a <= 2 ^ 53 → 1 <= k → a * 2 ^ k - 2 ^ (k - 1) < P →
  a * 2 ^ k <= round_pos P.
Proof.
  intros Ha Hk HP.
  destruct (Z.le_gt_cases (a * 2 ^ k) P) as [Hge|Hlt].
  { apply round_pos_ge; lia. }
  pose proof (pow2_pos k ltac:(lia)) as Hpk.
  pose proof (pow2_pos (k - 1) ltac:(lia)) as Hpk1.
  pose proof (pow2_split k Hk) as H2.
  assert (2 ^ (52 + k) <= P < 2 ^ (53 + k)) as Hwin.
  { rewrite !Z.pow_add_r by lia. nia. }
  assert (2 ^ 53 <= P) as Hl.
  { pose proof (pow2_mono 53 (52 + k) ltac:(lia)). lia. }
  pose proof (shift_window P k Hk Hwin) as Hs.
  assert (P / 2 ^ k = a - 1) as Hq.
  { symmetry. apply (Z.div_unique P (2 ^ k) (a - 1) (P - (a - 1) * 2 ^ k)); [left|]; nia. }
  destruct (quotient_bounds P Hl) as (_ & EP & RP).
  destruct (round_pos_large P Hl) as [(E & Hh & _)|(E & _)];
    cbv zeta in *; rewrite Hs in *; rewrite Hq in *.
  - nia.
  - rewrite E. lia.
Qed.

(** The largest finite double is [2 ^ 1024 - 2 ^ 971]; integers from the
    midpoint [2 ^ 1024 - 2 ^ 970] on round to [2 ^ 1024]. *)
Lemma round_pos_finite (m : Z) :
  0 <= m < 2 ^ 1024 - 2 ^ 970 → round_pos m <= 2 ^ 1024 - 2 ^ 971.
Proof.
  intros [H0 H1].
  replace (2 ^ 1024 - 2 ^ 971) with (round_pos (2 ^ 1024 - 2 ^ 970 - 1))
    by (vm_compute; reflexivity).
  apply round_pos_mono. lia.
Qed.

Lemma float_of_int_ok (m : Z) :
  0 <= m < 2 ^ 1024 - 2 ^ 970 →
  float_of_int m = Ok (mk_float (round_pos m) 0).
Proof.
  intros [H0 H1]. unfold float_of_int.
  rewrite round_nearest_even_nonneg by assumption.
  pose proof (round_pos_nonneg m H0) as Hn.
  pose proof (round_pos_finite m (conj H0 H1)) as Hle.
  assert (0 < 2 ^ 971) by (apply pow2_pos; lia).
  rewrite Z.abs_eq by assumption.
  destruct (Z.ltb_spec (round_pos m) (2 ^ emax)) as [_|Hge]; [reflexivity|].
  unfold emax in Hge. lia.
Qed.

Lemma float_of_int_overflow (m : Z) :
  2 ^ 1024 - 2 ^ 970 <= m → float_of_int m = Raise OverflowError.
Proof.
  intros H. unfold float_of_int.
  assert (0 < 2 ^ 1024 - 2 ^ 970) as Hpos by (vm_compute; reflexivity).
  rewrite round_nearest_even_nonneg by lia.
  assert (2 ^ 1024 <= round_pos m) as Hge.
  { replace (2 ^ 1024) with (round_pos (2 ^ 1024 - 2 ^ 970))
      by (vm_compute; reflexivity).
    apply round_pos_mono. lia. }
  assert (0 < 2 ^ 1024) by (apply pow2_pos; lia).
  rewrite Z.abs_eq by lia.
  destruct (Z.ltb_spec (round_pos m) (2 ^ emax)) as [Hlt|_]; [|reflexivity].
  unfold emax in Hlt. lia.
Qed.

Lemma float_of_int_exact (m : Z) :
  0 <= m <= 2 ^ 53 → float_of_int m = Ok (mk_float m 0).
Proof.
  intros H.
  assert (2 ^ 53 < 2 ^ 1024 - 2 ^ 970) by (vm_compute; reflexivity).
  rewrite float_of_int_ok by lia.
  pose proof (round_pos_representable m 0 ltac:(lia) ltac:(lia)) as E.
  rewrite Z.pow_0_r, Z.mul_1_r in E. rewrite E. reflexivity.
Qed.

(** The literals: around 1/5 the doubles are the multiples of [2 ^ -55],
    around 1/10 the multiples of [2 ^ -56]; [lit_0_2] and [lit_0_1] are the
    nearest ones. *)
Lemma lit_0_2_nearest (k : Z) :
  expo lit_0_2 = -55 + 1 ∧ 2 ^ 52 <= 2 * mant lit_0_2 < 2 ^ 53
  ∧ Z.abs (5 * (2 * mant lit_0_2) - 2 ^ 55) <= Z.abs (5 * k - 2 ^ 55).
Proof. cbn [lit_0_2 mant expo]. lia. Qed.

Lemma lit_0_1_nearest (k : Z) :
  expo lit_0_1 = -56 + 1 ∧ 2 ^ 52 <= 2 * mant lit_0_1 < 2 ^ 53
  ∧ Z.abs (10 * (2 * mant lit_0_1) - 2 ^ 56) <= Z.abs (10 * k - 2 ^ 56).
Proof. cbn [lit_0_1 mant expo]. lia. Qed.

(** The products of [pick_colour] need neither subnormal numbers nor
    infinities. *)
Lemma mul_int_normal (x : float) (m : Z) :
  x = lit_0_2 ∨ x = lit_0_1 → 0 <= m < 2 ^ 1024 - 2 ^ 970 →
  ∃ y, mul_int x m = Ok y ∧ normal_or_zero y.
Proof.
  intros Hx Hm. unfold mul_int. rewrite (float_of_int_ok m Hm).
  eexists. split; [reflexivity|].
  pose proof (round_pos_nonneg m ltac:(lia)) as HM.
  pose proof (round_pos_finite m Hm) as HF.
  set (M := round_pos m) in *.
  assert (mant (fmul x (mk_float M 0)) = round_pos (3602879701896397 * M)
          ∧ -55 <= expo (fmul x (mk_float M 0)) <= -54) as [Em Ee].
  { destruct Hx as [-> | ->]; cbn [fmul lit_0_2 lit_0_1 mant expo];
      rewrite round_nearest_even_nonneg by lia; lia. }
  unfold normal_or_zero. rewrite Em.
  destruct (Z.eq_dec M 0) as [->|HM0].
  { left. vm_compute. reflexivity. }
  right.
  assert (2 ^ 51 * 2 ^ 0 <= round_pos (3602879701896397 * M)) as Hlo
    by (apply round_pos_ge; lia).
  assert (round_pos (3602879701896397 * M) <= (2 ^ 53 - 1) * 2 ^ 1023) as Hhi.
  { apply round_pos_le; [lia|lia|].
    change (2 ^ 1024 - 2 ^ 971) with ((2 ^ 53 - 1) * 2 ^ 971) in HF.
    change ((2 ^ 53 - 1) * 2 ^ 1023) with (2 ^ 52 * ((2 ^ 53 - 1) * 2 ^ 971)).
    nia. }
  set (R := round_pos (3602879701896397 * M)) in *.
  rewrite Z.abs_eq by lia.
  assert (51 <= Z.log2 R) by (apply Z.log2_le_pow2; lia).
  assert (Z.log2 R < 1076).
  { apply Z.log2_lt_pow2; [lia|].
    assert ((2 ^ 53 - 1) * 2 ^ 1023 < 2 ^ 1076) by (vm_compute; reflexivity).
    lia. }
  unfold emin, emax. lia.
Qed.
End PyFloatFacts.

(** ** pick_colour *)

Section PickColour.
Import PyFloat PyFloatFacts.

(** For a second argument that converts to a double, [pick_colour] compares
    [n], scaled by [2 ^ 54] and by [2 ^ 55], with the rounded product of the
    mantissa of [0.2] and the converted argument. *)
Lemma pick_colour_convertible (n m : Z) :
  0 <= m < 2 ^ 1024 - 2 ^ 970 →
  pick_colour n m =
    Ok (if round_pos (3602879701896397 * round_pos m) <? n * 2 ^ 54 then "red"%string
        else if round_pos (3602879701896397 * round_pos m) <? n * 2 ^ 55 then "orange"%string
        else if n =? 0 then "brightgreen"%string
        else "yellow"%string).
Proof.
  intros H. unfold pick_colour, mul_int.
  rewrite (float_of_int_ok m H).
  pose proof (round_pos_nonneg m ltac:(lia)) as HM.
  unfold fmul, int_gt, lit_0_2, lit_0_1; cbn [mant expo mbind result_bind mret result_ret].
  rewrite round_nearest_even_nonneg by lia.
  change (0 <=? -54 + 0) with false. change (0 <=? -55 + 0) with false.
  change (- (-54 + 0)) with 54. change (- (-55 + 0)) with 55.
  cbv iota.
  destruct (_ <? n * 2 ^ 54); [reflexivity|].
  cbn [mant expo mbind result_bind mret result_ret].
  destruct (_ <? n * 2 ^ 55); [reflexivity|].
  destruct (n =? 0); reflexivity.
Qed.

(** Below [3 * 2 ^ 51] the rounded product stays under the next multiple
    of the threshold. *)
Lemma product_lt_fifth (n m : Z) :
  0 <= m < 3 * 2 ^ 51 → m < 5 * n →
  round_pos (3602879701896397 * round_pos m) < n * 2 ^ 54.
Proof.
  intros Hm Hn. rewrite (round_pos_small m) by lia.
  pose proof (round_pos_error_below (3602879701896397 * m) 52
                ltac:(split; [lia | change (2 ^ (53 + 52)) with (2 ^ 105); lia])
                ltac:(lia)) as Hr.
  change (2 ^ (52 - 1)) with (2 ^ 51) in Hr. lia.
Qed.

Lemma product_lt_tenth (n m : Z) :
  0 <= m < 3 * 2 ^ 51 → m < 10 * n →
  round_pos (3602879701896397 * round_pos m) < n * 2 ^ 55.
Proof.
  intros Hm Hn. rewrite (round_pos_small m) by lia.
  pose proof (round_pos_error_below (3602879701896397 * m) 52
                ltac:(split; [lia | change (2 ^ (53 + 52)) with (2 ^ 105); lia])
                ltac:(lia)) as Hr.
  change (2 ^ (52 - 1)) with (2 ^ 51) in Hr. lia.
Qed.

(** Up to [2 ^ 53] the rounded product does not fall below a threshold
    that the exact product reaches. *)
Lemma product_ge_fifth (n m : Z) :
  0 <= n → 5 * n <= m <= 2 ^ 53 →
  n * 2 ^ 54 <= round_pos (3602879701896397 * round_pos m).
Proof.
  intros Hn Hm.
  pose proof (round_pos_representable m 0 ltac:(lia) ltac:(lia)) as E.
  rewrite Z.pow_0_r, Z.mul_1_r in E. rewrite E.
  apply round_pos_ge; lia.
Qed.

Lemma product_ge_tenth (n m : Z) :
  0 <= n → 10 * n <= m <= 2 ^ 53 →
  n * 2 ^ 55 <= round_pos (3602879701896397 * round_pos m).
Proof.
  intros Hn Hm.
  pose proof (round_pos_representable m 0 ltac:(lia) ltac:(lia)) as E.
  rewrite Z.pow_0_r, Z.mul_1_r in E. rewrite E.
  apply round_pos_ge; lia.
Qed.

(** An integer [n <= 2 ^ 53] survives the round trip through ten times
    itself: [10 * n] may be converted to a smaller double, but a tenth of
    that double is rounded back to [n] or above. *)
Lemma tenth_of_ten_times (n : Z) :
  1 <= n <= 2 ^ 53 →
  n * 2 ^ 55 <= round_pos (3602879701896397 * round_pos (10 * n)).
Proof.
  intros Hn.
  destruct (Z.lt_ge_cases (10 * n) (2 ^ 53)) as [Hs|Hl].
  { rewrite (round_pos_small (10 * n)) by lia. apply round_pos_ge; lia. }
  destruct (shift_bounds (10 * n) Hl) as [Hs1 [L U]].
  pose proof (round_pos_error (10 * n) Hl) as He.
  assert (shift (10 * n) <= 4) as Hs4.
  { destruct (Z.le_gt_cases (shift (10 * n)) 4) as [|Hgt]; [assumption|].
    pose proof (pow2_mono 57 (52 + shift (10 * n)) ltac:(lia)). lia. }
  assert (n = 2 ^ 53 ∨ 2 ^ 52 < n < 2 ^ 53 ∨ n = 2 ^ 52 ∨ 2 ^ 51 < n < 2 ^ 52
          ∨ n = 2 ^ 51 ∨ 2 ^ 50 < n < 2 ^ 51 ∨ n = 2 ^ 50 ∨ 2 ^ 49 < n < 2 ^ 50)
    as Hcases by lia.
  assert (shift (10 * n) = 1 ∨ shift (10 * n) = 2 ∨ shift (10 * n) = 3
          ∨ shift (10 * n) = 4) as Hshift by lia.
  set (M := round_pos (10 * n)) in *.
  assert (2 ^ (52 + shift (10 * n)) <= 10 * n
          ∧ (shift (10 * n) = 1 ∧ 10 * n - 1 <= M ∨ shift (10 * n) = 2 ∧ 10 * n - 2 <= M
             ∨ shift (10 * n) = 3 ∧ 10 * n - 4 <= M ∨ shift (10 * n) = 4 ∧ 10 * n - 8 <= M))
    as [L' HM].
  { split; [exact L|].
    destruct Hshift as [E|[E|[E|E]]]; rewrite E in He; cbn in He; lia. }
  clear He L U Hshift Hs1 Hs4.
  destruct Hcases as [E|[H|[E|[H|[E|[H|[E|H]]]]]]];
    try (subst n; vm_compute; discriminate).
  - (* 2^52 < n < 2^53: the doubles around [n] are the integers *)
    apply (round_pos_round_up n 55); [lia|lia|].
    change (2 ^ (55 - 1)) with (2 ^ 54).
    destruct HM as [[E HM]|[[E HM]|[[E HM]|[E HM]]]]; rewrite E in L'; cbn in L'; lia.
  - (* 2^51 < n < 2^52: they are the multiples of 1/2 *)
    replace (n * 2 ^ 55) with ((2 * n) * 2 ^ 54) by lia.
    apply (round_pos_round_up (2 * n) 54); [lia|lia|].
    change (2 ^ (54 - 1)) with (2 ^ 53).
    destruct HM as [[E HM]|[[E HM]|[[E HM]|[E HM]]]]; rewrite E in L'; cbn in L'; lia.
  - (* 2^50 < n < 2^51: the multiples of 1/4 *)
    replace (n * 2 ^ 55) with ((4 * n) * 2 ^ 53) by lia.
    apply (round_pos_round_up (4 * n) 53); [lia|lia|].
    change (2 ^ (53 - 1)) with (2 ^ 52).
    destruct HM as [[E HM]|[[E HM]|[[E HM]|[E HM]]]]; rewrite E in L'; cbn in L'; lia.
  - (* 2^49 < n < 2^50: the multiples of 1/8 *)
    replace (n * 2 ^ 55) with ((8 * n) * 2 ^ 52) by lia.
    apply (round_pos_round_up (8 * n) 52); [lia|lia|].
    change (2 ^ (52 - 1)) with (2 ^ 51).
    destruct HM as [[E HM]|[[E HM]|[[E HM]|[E HM]]]]; rewrite E in L'; cbn in L'; lia.
Qed.

(** The rounded product does not fall below [n], scaled, when the exact
    count reaches [10 * n]: conversion and product are monotone. *)
Lemma product_ge_tenth_all (n m : Z) :
  1 <= n <= 2 ^ 53 → 10 * n <= m →
  n * 2 ^ 55 <= round_pos (3602879701896397 * round_pos m).
Proof.
  intros Hn Hm.
  pose proof (tenth_of_ten_times n Hn) as H0.
  pose proof (round_pos_mono (10 * n) m ltac:(lia)) as H1.
  pose proof (round_pos_nonneg (10 * n) ltac:(lia)) as H2.
  pose proof (round_pos_mono (3602879701896397 * round_pos (10 * n))
                (3602879701896397 * round_pos m) ltac:(lia)) as H3.
  lia.
Qed.

Lemma bound_convertible : 2 ^ 53 < 2 ^ 1024 - 2 ^ 970.
Proof. vm_compute. reflexivity. Qed.

(** From the midpoint between the largest double and [2 ^ 1024] on, the
    conversion of the second argument fails, whatever the first. *)
Lemma pick_colour_overflow (n m : Z) :
  2 ^ 1024 - 2 ^ 970 <= m → pick_colour n m = Raise OverflowError.
Proof.
  intros H. unfold pick_colour, mul_int.
  rewrite (float_of_int_overflow m H). reflexivity.
Qed.

(** Below [3 * 2 ^ 51] = 6755399441055744 the floating-point tiering rule
    is the rule on exact ratios. *)
Lemma pick_colour_refines_exact (n m : Z) :
  0 <= n → 0 <= m < 3 * 2 ^ 51 →
  pick_colour n m = Ok (pick_colour_exact n m).
Proof.
  intros Hn Hm. pose proof bound_convertible.
  rewrite pick_colour_convertible by lia. unfold pick_colour_exact. f_equal.
  destruct (Z.ltb_spec m (5 * n)) as [H5|H5].
  - pose proof (product_lt_fifth n m Hm H5).
    destruct (Z.ltb_spec (round_pos (3602879701896397 * round_pos m)) (n * 2 ^ 54));
      [reflexivity|lia].
  - pose proof (product_ge_fifth n m Hn ltac:(lia)).
    destruct (Z.ltb_spec (round_pos (3602879701896397 * round_pos m)) (n * 2 ^ 54));
      [lia|].
    destruct (Z.ltb_spec m (10 * n)) as [H10|H10].
    + pose proof (product_lt_tenth n m Hm H10).
      destruct (Z.ltb_spec (round_pos (3602879701896397 * round_pos m)) (n * 2 ^ 55));
        [reflexivity|lia].
    + pose proof (product_ge_tenth n m Hn ltac:(lia)).
      destruct (Z.ltb_spec (round_pos (3602879701896397 * round_pos m)) (n * 2 ^ 55));
        [lia|reflexivity].
Qed.

(** *** Zero theorems *)

(** C1, as stated, fails: with one admitted proof and no theorem the
    result is "red", not "yellow".  [0.2 * 0] is [0.0] and [1 > 0.0]
    holds, so the first branch is taken; nothing is divided. *)
Lemma pick_colour_no_theorems_not_yellow :
  0 < 1 ∧ pick_colour 1 0 = Ok "red"%string ∧ pick_colour 1 0 ≠ Ok "yellow"%string.
Proof. split; [lia|]. split; [vm_compute; reflexivity|vm_compute; discriminate]. Qed.

(** C1, amended: for every integer [n_admitted > 0],
    [pick_colour(n_admitted, 0)] returns "red". *)
Theorem pick_colour_no_theorems_red (n : Z) :
  0 < n → pick_colour n 0 = Ok "red"%string.
Proof.
  intros Hn. rewrite pick_colour_convertible by (vm_compute; split; [discriminate|reflexivity]).
  rewrite (round_pos_small 0) by (vm_compute; split; [discriminate|reflexivity]).
  rewrite Z.mul_0_r, (round_pos_small 0) by (vm_compute; split; [discriminate|reflexivity]).
  destruct (Z.ltb_spec 0 (n * 2 ^ 54)); [reflexivity|lia].
Qed.

Lemma pick_colour_no_theorems_red_witness :
  0 < 3 ∧ pick_colour 3 0 = Ok "red"%string.
Proof. split; [lia | apply (pick_colour_no_theorems_red 3); lia]. Defined.

(** *** No admitted proof *)

(** C2, as stated, fails for a theorem count that does not convert to a
    double: [0.2 * 2 ** 1024] raises [OverflowError]. *)
Lemma pick_colour_none_admitted_overflow :
  0 <= 2 ^ 1024 ∧ pick_colour 0 (2 ^ 1024) = Raise OverflowError
  ∧ pick_colour 0 (2 ^ 1024) ≠ Ok "brightgreen"%string.
Proof.
  split; [vm_compute; discriminate|].
  split; [vm_compute; reflexivity|vm_compute; discriminate].
Qed.

(** C2, amended: for every integer [m] with [0 <= m < 2^1024 - 2^970], the
    integers that convert to a double, [pick_colour(0, m)] returns
    "brightgreen"; in particular for [m = 0]. *)
Theorem pick_colour_none_admitted (m : Z) :
  0 <= m < 2 ^ 1024 - 2 ^ 970 → pick_colour 0 m = Ok "brightgreen"%string.
Proof.
  intros Hm. rewrite pick_colour_convertible by assumption.
  pose proof (round_pos_nonneg m ltac:(lia)) as HM.
  pose proof (round_pos_nonneg (3602879701896397 * round_pos m) ltac:(lia)) as HR.
  rewrite !Z.mul_0_l.
  destruct (Z.ltb_spec (round_pos (3602879701896397 * round_pos m)) 0); [lia|].
  reflexivity.
Qed.

Lemma pick_colour_none_admitted_witness :
  0 <= 0 < 2 ^ 1024 - 2 ^ 970 ∧ pick_colour 0 0 = Ok "brightgreen"%string.
Proof.
  assert (0 <= 0 < 2 ^ 1024 - 2 ^ 970) as H
    by (vm_compute; split; [discriminate|reflexivity]).
  split; [exact H | exact (pick_colour_none_admitted 0 H)].
Defined.

(** *** Red *)

(** C3, as stated, fails for large counts: at
    [n_theorems = 3 * 2^51] the product [0.2 * n_theorems] is rounded up
    to the next integer, which is [n_admitted]. *)
Lemma pick_colour_red_large_counts :
  0 < 6755399441055744 ∧ 6755399441055744 < 5 * 1351079888211149
  ∧ pick_colour 1351079888211149 6755399441055744 = Ok "orange"%string
  ∧ pick_colour 1351079888211149 6755399441055744 ≠ Ok "red"%string.
Proof.
  split; [lia|]. split; [lia|].
  split; [vm_compute; reflexivity|vm_compute; discriminate].
Qed.

(** C3, amended: for all integers [n_admitted >= 0] and [n_theorems] with
    [0 < n_theorems < 3 * 2^51 = 6755399441055744] and
    [5 * n_admitted > n_theorems], [pick_colour(n_admitted, n_theorems)]
    returns "red"; in particular [pick_colour(5, 10)] does. *)
Theorem pick_colour_red (n m : Z) :
  0 <= n → 0 < m < 3 * 2 ^ 51 → m < 5 * n →
  pick_colour n m = Ok "red"%string.
Proof.
  intros Hn Hm H5. rewrite pick_colour_refines_exact by lia.
  unfold pick_colour_exact.
  destruct (Z.ltb_spec m (5 * n)); [reflexivity|lia].
Qed.

Lemma pick_colour_red_witness :
  0 <= 5 ∧ 0 < 10 < 3 * 2 ^ 51 ∧ 10 < 5 * 5 ∧ pick_colour 5 10 = Ok "red"%string.
Proof.
  assert (0 <= 5) as H1 by lia.
  assert (0 < 10 < 3 * 2 ^ 51) as H2 by lia.
  assert (10 < 5 * 5) as H3 by lia.
  exact (conj H1 (conj H2 (conj H3 (pick_colour_red 5 10 H1 H2 H3)))).
Defined.

(** *** Orange *)

(** C4, as stated, fails for large counts: just above [3 * 2^51] the
    product [0.1 * n_theorems] is rounded up to [n_admitted]. *)
Lemma pick_colour_orange_large_counts :
  0 < 6755399441055749
  ∧ 5 * 675539944105575 <= 6755399441055749 < 10 * 675539944105575
  ∧ pick_colour 675539944105575 6755399441055749 = Ok "yellow"%string
  ∧ pick_colour 675539944105575 6755399441055749 ≠ Ok "orange"%string.
Proof.
  split; [lia|]. split; [lia|].
  split; [vm_compute; reflexivity|vm_compute; discriminate].
Qed.

(** C4, amended: for all integers [n_admitted >= 0] and [n_theorems] with
    [0 < n_theorems < 3 * 2^51 = 6755399441055744],
    [10 * n_admitted > n_theorems] and [5 * n_admitted <= n_theorems],
    [pick_colour(n_admitted, n_theorems)] returns "orange". *)
Theorem pick_colour_orange (n m : Z) :
  0 <= n → 0 < m < 3 * 2 ^ 51 → 5 * n <= m → m < 10 * n →
  pick_colour n m = Ok "orange"%string.
Proof.
  intros Hn Hm H5 H10. rewrite pick_colour_refines_exact by lia.
  unfold pick_colour_exact.
  destruct (Z.ltb_spec m (5 * n)); [lia|].
  destruct (Z.ltb_spec m (10 * n)); [reflexivity|lia].
Qed.

Lemma pick_colour_orange_witness :
  0 <= 3 ∧ 0 < 20 < 3 * 2 ^ 51 ∧ 5 * 3 <= 20 ∧ 20 < 10 * 3
  ∧ pick_colour 3 20 = Ok "orange"%string.
Proof.
  assert (0 <= 3) as H1 by lia.
  assert (0 < 20 < 3 * 2 ^ 51) as H2 by lia.
  assert (5 * 3 <= 20) as H3 by lia.
  assert (20 < 10 * 3) as H4 by lia.
  exact (conj H1 (conj H2 (conj H3 (conj H4 (pick_colour_orange 3 20 H1 H2 H3 H4))))).
Defined.

(** *** Yellow *)

(** C5, as stated, fails for large counts: [10 * (2^53 + 7)] is converted
    to a smaller double, and a tenth of it is rounded to [2^53 + 6]. *)
Lemma pick_colour_yellow_large_counts :
  0 < 90071992547409990 ∧ 0 < 9007199254740999
  ∧ 10 * 9007199254740999 <= 90071992547409990
  ∧ pick_colour 9007199254740999 90071992547409990 = Ok "orange"%string
  ∧ pick_colour 9007199254740999 90071992547409990 ≠ Ok "yellow"%string.
Proof.
  split; [lia|]. split; [lia|]. split; [lia|].
  split; [vm_compute; reflexivity|vm_compute; discriminate].
Qed.

(** C5, amended: for all integers [n_admitted] and [n_theorems] with
    [0 < n_admitted <= 2^53 = 9007199254740992] and
    [10 * n_admitted <= n_theorems < 2^1024 - 2^970] (a count that converts
    to a double), [pick_colour(n_admitted, n_theorems)] returns "yellow". *)
Theorem pick_colour_yellow (n m : Z) :
  0 < n <= 2 ^ 53 → 10 * n <= m → m < 2 ^ 1024 - 2 ^ 970 →
  pick_colour n m = Ok "yellow"%string.
Proof.
  intros Hn H10 Hm.
  rewrite pick_colour_convertible by lia.
  pose proof (product_ge_tenth_all n m ltac:(lia) H10) as HR.
  destruct (Z.ltb_spec (round_pos (3602879701896397 * round_pos m)) (n * 2 ^ 54)); [lia|].
  destruct (Z.ltb_spec (round_pos (3602879701896397 * round_pos m)) (n * 2 ^ 55)); [lia|].
  destruct (Z.eqb_spec n 0); [lia|reflexivity].
Qed.

Lemma pick_colour_yellow_witness :
  0 < 1 <= 2 ^ 53 ∧ 10 * 1 <= 10 ∧ 10 < 2 ^ 1024 - 2 ^ 970
  ∧ pick_colour 1 10 = Ok "yellow"%string.
Proof.
  assert (0 < 1 <= 2 ^ 53) as H1 by lia.
  assert (10 * 1 <= 10) as H2 by lia.
  assert (10 < 2 ^ 1024 - 2 ^ 970) as H3 by (vm_compute; reflexivity).
  exact (conj H1 (conj H2 (conj H3 (pick_colour_yellow 1 10 H1 H2 H3)))).
Defined.

(** *** Totality *)

(** C8, as stated, fails for a theorem count that does not convert to a
    double: the call raises [OverflowError] and returns no tag. *)
Lemma pick_colour_not_total :
  0 <= 1 ∧ 0 <= 2 ^ 1024 - 2 ^ 970
  ∧ pick_colour 1 (2 ^ 1024 - 2 ^ 970) = Raise OverflowError
  ∧ ¬ (∃ c : string, pick_colour 1 (2 ^ 1024 - 2 ^ 970) = Ok c).
Proof.
  split; [lia|]. split; [vm_compute; discriminate|].
  split; [vm_compute; reflexivity|].
  intros [c Hc]. vm_compute in Hc. discriminate.
Qed.

(** C8, amended: for every integer [n_admitted] and every integer
    [n_theorems] with [0 <= n_theorems < 2^1024 - 2^970] (the integers
    that convert to a double; [n_theorems = 0] is one),
    [pick_colour] returns normally and its result is one of "red",
    "orange", "yellow", "brightgreen". *)
Theorem pick_colour_total (n m : Z) :
  0 <= m < 2 ^ 1024 - 2 ^ 970 →
  ∃ c : string, pick_colour n m = Ok c
    ∧ (c = "red" ∨ c = "orange" ∨ c = "yellow" ∨ c = "brightgreen")%string.
Proof.
  intros Hm. rewrite pick_colour_convertible by assumption.
  destruct (_ <? n * 2 ^ 54); [eauto 6|].
  destruct (_ <? n * 2 ^ 55); [eauto 6|].
  destruct (n =? 0); eauto 6.
Qed.

Lemma pick_colour_total_witness :
  0 <= 0 < 2 ^ 1024 - 2 ^ 970
  ∧ ∃ c : string, pick_colour 4 0 = Ok c
      ∧ (c = "red" ∨ c = "orange" ∨ c = "yellow" ∨ c = "brightgreen")%string.
Proof.
  assert (0 <= 0 < 2 ^ 1024 - 2 ^ 970) as H
    by (vm_compute; split; [discriminate|reflexivity]).
  split; [exact H | exact (pick_colour_total 4 0 H)].
Defined.
End PickColour.

(** ** Bytes and strings *)

(** b"a\n\nb\r\nc\rd\n".splitlines() is [b"a", b"", b"b", b"c", b"d"]. *)
Example splitlines_line_ends :
  splitlines [x61; x0a; x0a; x62; x0d; x0a; x63; x0d; x64; x0a]
  = [[x61]; []; [x62]; [x63]; [x64]].
Proof. reflexivity. Qed.

Example splitlines_empty : splitlines [] = [] ∧ splitlines [x0a] = [[]].
Proof. split; reflexivity. Qed.

Example str_decimal :
  str 0 = "0"%string ∧ str 42 = "42"%string ∧ str (-7) = "-7"%string.
Proof. repeat split; reflexivity. Qed.

Example format_needs_arguments :
  format "{}-{}" ["a"%string] = Raise IndexError.
Proof. reflexivity. Qed.

(** ** collect *)

Section Collect.
Variable E : env.
Variable d : string.

Lemma len_nonneg {A : Type} (l : list A) : 0 <= len l.
Proof. unfold len. lia. Qed.

(** One guarded search: the number of lines found, or 0 when the search
    raises. *)
Lemma guarded_search (r : result bytes) :
  try_except (out ← r; mret (len (splitlines out))) (mret 0)
  = Ok (match r with Ok out => len (splitlines out) | Raise _ => 0 end).
Proof. destruct r; reflexivity. Qed.

Lemma collect_counts :
  collect E d =
    Ok (match check_output E ["grep"; "-r"; "-E"; "Admitted"; d]%string with
        | Ok out => len (splitlines out) | Raise _ => 0 end,
        match check_output E ["grep"; "-r"; "-E"; "Theorem|Lemma|Remark"; d]%string with
        | Ok out => len (splitlines out) | Raise _ => 0 end,
        match check_output E ["grep"; "-r"; "-E"; "Qed|Defined"; d]%string with
        | Ok out => len (splitlines out) | Raise _ => 0 end).
Proof. unfold collect. rewrite !guarded_search. reflexivity. Qed.

(** The counts are never negative. *)
Lemma collect_nonneg (a t q : Z) :
  collect E d = Ok (a, t, q) → 0 <= a ∧ 0 <= t ∧ 0 <= q.
Proof.
  rewrite collect_counts. intros H. injection H as <- <- <-.
  repeat split; destruct (check_output E _); try apply len_nonneg; lia.
Qed.

(** C6: [collect] never propagates a failure of one of its three
    searches: it always returns a triple of counts, the count of a search
    that raised is 0, and when all three raise the result is (0, 0, 0). *)
Theorem collect_never_raises :
  ∃ n_admitted n_theorems n_qed : Z,
    collect E d = Ok (n_admitted, n_theorems, n_qed)
    ∧ (∀ e, check_output E ["grep"; "-r"; "-E"; "Admitted"; d]%string = Raise e
            → n_admitted = 0)
    ∧ (∀ e, check_output E ["grep"; "-r"; "-E"; "Theorem|Lemma|Remark"; d]%string = Raise e
            → n_theorems = 0)
    ∧ (∀ e, check_output E ["grep"; "-r"; "-E"; "Qed|Defined"; d]%string = Raise e
            → n_qed = 0)
    ∧ ((∀ args, ∃ e, check_output E args = Raise e)
       → collect E d = Ok (0, 0, 0)).
Proof.
  rewrite collect_counts. do 3 eexists. split; [reflexivity|].
  split; [intros e ->; reflexivity|].
  split; [intros e ->; reflexivity|].
  split; [intros e ->; reflexivity|].
  intros Hall.
  destruct (Hall ["grep"; "-r"; "-E"; "Admitted"; d]%string) as [e1 ->].
  destruct (Hall ["grep"; "-r"; "-E"; "Theorem|Lemma|Remark"; d]%string) as [e2 ->].
  destruct (Hall ["grep"; "-r"; "-E"; "Qed|Defined"; d]%string) as [e3 ->].
  reflexivity.
Qed.
End Collect.

Example collect_without_grep :
  collect (Examples.offline Examples.grep_missing) "theories" = Ok (0, 0, 0).
Proof. reflexivity. Qed.

Example collect_two_finished_proofs :
  collect (Examples.online Examples.grep_two_qed) "theories" = Ok (0, 0, 2).
Proof. reflexivity. Qed.

(** ** main *)

Section Main.
Implicit Types (E : env) (d : string) (w : world).

(** The [format] call of [main] builds the URL of the specification. *)
Lemma format_badge_url (n : Z) (colour : string) :
  format "https://img.shields.io/badge/admitted%20proofs-{}-{}?style=flat"
         [str n; colour]
  = Ok (badge_url n colour).
Proof. reflexivity. Qed.

(** [main], once the counts and the colour are known: open the file, send
    the request, write the answer. *)
Lemma main_steps E d w (n m q : Z) (colour : string) :
  collect E d = Ok (n, m, q) → pick_colour n m = Ok colour →
  main E d w =
    (f ← open_wb E "admitted.svg";
     body ← urlopen E (mk_request (badge_url n colour) [("User-Agent", "Mozilla/5.0")]%string);
     write f body) w.
Proof.
  intros Hc Hp. unfold main.
  unfold mbind at 1, io_bind at 1, lift at 1. rewrite Hc. cbv beta iota.
  unfold mbind at 1, io_bind at 1, lift at 1. rewrite Hp. cbv beta iota.
  unfold mbind at 1, io_bind at 1, lift at 1. rewrite format_badge_url.
  reflexivity.
Qed.

(** The file cannot be opened: nothing is sent, nothing is written. *)
Lemma main_not_writable E d w (n m q : Z) (colour : string) :
  collect E d = Ok (n, m, q) → pick_colour n m = Ok colour →
  can_write E "admitted.svg" = false →
  main E d w = (Raise PermissionError, w).
Proof.
  intros Hc Hp Hw. rewrite (main_steps E d w n m q colour Hc Hp).
  unfold mbind, io_bind, open_wb. rewrite Hw. reflexivity.
Qed.

(** The fetch fails: the file is left empty. *)
Lemma main_fetch_fails E d w (n m q : Z) (colour : string) (e : exn) :
  collect E d = Ok (n, m, q) → pick_colour n m = Ok colour →
  can_write E "admitted.svg" = true →
  urlopen_read E (mk_request (badge_url n colour) [("User-Agent", "Mozilla/5.0")]%string)
    = Raise e →
  main E d w =
    (Raise e,
     mk_world (<["admitted.svg"%string := []]> (files w))
              (sent w ++ [mk_request (badge_url n colour)
                                     [("User-Agent", "Mozilla/5.0")]%string])).
Proof.
  intros Hc Hp Hw Hu. rewrite (main_steps E d w n m q colour Hc Hp).
  unfold mbind, io_bind, open_wb, urlopen. rewrite Hw. cbn [files sent].
  rewrite Hu. reflexivity.
Qed.

(** The fetch succeeds: the file holds the answer, byte for byte. *)
Lemma main_fetch_succeeds E d w (n m q : Z) (colour : string) (body : bytes) :
  collect E d = Ok (n, m, q) → pick_colour n m = Ok colour →
  can_write E "admitted.svg" = true →
  urlopen_read E (mk_request (badge_url n colour) [("User-Agent", "Mozilla/5.0")]%string)
    = Ok body →
  main E d w =
    (Ok tt,
     mk_world (<["admitted.svg"%string := body]> (files w))
              (sent w ++ [mk_request (badge_url n colour)
                                     [("User-Agent", "Mozilla/5.0")]%string])).
Proof.
  intros Hc Hp Hw Hu. rewrite (main_steps E d w n m q colour Hc Hp).
  unfold mbind, io_bind, open_wb, urlopen, write. rewrite Hw. cbn [files sent].
  rewrite Hu. cbn [files sent].
  rewrite lookup_insert_eq, insert_insert_eq. reflexivity.
Qed.

Example main_replaces_old_badge :
  let E := Examples.online Examples.grep_two_qed in
  (main E "." Examples.old_badge).1 = Ok tt
  ∧ files (main E "." Examples.old_badge).2 !! "admitted.svg"%string = Some Examples.svg.
Proof.
  intros E.
  rewrite (main_fetch_succeeds E "." Examples.old_badge 0 0 2 "brightgreen" Examples.svg)
    by (vm_compute; reflexivity).
  split; [reflexivity|]. cbn [snd files]. apply lookup_insert_eq.
Qed.

Lemma contains_zero_brightgreen :
  contains "admitted%20proofs-0-brightgreen" (badge_url 0 "brightgreen").
Proof.
  exists "https://img.shields.io/badge/"%string, "?style=flat"%string.
  reflexivity.
Qed.

(** C7: in [main] the badge URL is exactly the prefix
    "https://img.shields.io/badge/admitted%20proofs-", [str(n_admitted)],
    "-", the colour of [pick_colour(n_admitted, n_theorems)] and
    "?style=flat": this is what the [format] call returns and the URL of
    the one request that [main] sends; when the counts are (0, 0, 0) it
    contains "admitted%20proofs-0-brightgreen". *)
Theorem main_badge_url E d w (n m q : Z) (colour : string) :
  collect E d = Ok (n, m, q) → pick_colour n m = Ok colour →
  can_write E "admitted.svg" = true →
  format "https://img.shields.io/badge/admitted%20proofs-{}-{}?style=flat"
         [str n; colour]
    = Ok ("https://img.shields.io/badge/admitted%20proofs-" +:+ str n
            +:+ "-" +:+ colour +:+ "?style=flat")
  ∧ map req_url (sent (main E d w).2)
    = map req_url (sent w)
      ++ ["https://img.shields.io/badge/admitted%20proofs-" +:+ str n
            +:+ "-" +:+ colour +:+ "?style=flat"]
  ∧ (n = 0 → m = 0 → q = 0 →
     ∃ url, map req_url (sent (main E d w).2) = map req_url (sent w) ++ [url]
            ∧ contains "admitted%20proofs-0-brightgreen" url).
Proof.
  intros Hc Hp Hw. split; [reflexivity|].
  assert (map req_url (sent (main E d w).2)
          = map req_url (sent w) ++ [badge_url n colour]) as Hsent.
  { destruct (urlopen_read E (mk_request (badge_url n colour)
                [("User-Agent", "Mozilla/5.0")]%string)) as [body|e] eqn:Hu.
    - rewrite (main_fetch_succeeds E d w n m q colour body Hc Hp Hw Hu).
      cbn [snd sent]. rewrite map_app. reflexivity.
    - rewrite (main_fetch_fails E d w n m q colour e Hc Hp Hw Hu).
      cbn [snd sent]. rewrite map_app. reflexivity. }
  split; [exact Hsent|].
  intros -> -> ->. exists (badge_url 0 colour). split; [exact Hsent|].
  assert (colour = "brightgreen"%string) as ->.
  { assert (pick_colour 0 0 = Ok "brightgreen"%string) as H0
      by (vm_compute; reflexivity).
    congruence. }
  exact contains_zero_brightgreen.
Qed.

Lemma main_badge_url_witness :
  let E := Examples.online Examples.grep_nothing in
  collect E "." = Ok (0, 0, 0) ∧ pick_colour 0 0 = Ok "brightgreen"%string
  ∧ can_write E "admitted.svg" = true
  ∧ map req_url (sent (main E "." Examples.empty_dir).2)
    = ["https://img.shields.io/badge/admitted%20proofs-0-brightgreen?style=flat"%string].
Proof.
  intros E.
  assert (collect E "." = Ok (0, 0, 0)) as H1 by reflexivity.
  assert (pick_colour 0 0 = Ok "brightgreen"%string) as H2 by (vm_compute; reflexivity).
  assert (can_write E "admitted.svg" = true) as H3 by reflexivity.
  split; [exact H1|]. split; [exact H2|]. split; [exact H3|].
  exact (proj1 (proj2 (main_badge_url E "." Examples.empty_dir 0 0 0 "brightgreen" H1 H2 H3))).
Defined.

(** C9: the third component of the result of [collect] does not
    influence [main]: two runs whose counts differ only in [n_qed], with
    the same badge service and the same file system, send the same
    request (so the same colour and URL), end in the same state of the
    files (so the same bytes in admitted.svg) and with the same outcome. *)
Theorem main_ignores_n_qed E1 E2 d w (n m q1 q2 : Z) :
  collect E1 d = Ok (n, m, q1) → collect E2 d = Ok (n, m, q2) →
  (∀ req, urlopen_read E1 req = urlopen_read E2 req) →
  can_write E1 "admitted.svg" = can_write E2 "admitted.svg" →
  main E1 d w = main E2 d w.
Proof.
  intros H1 H2 Hu Hw. unfold main.
  unfold mbind at 1, io_bind at 1, lift at 1. rewrite H1.
  unfold mbind at 7, io_bind at 6, lift at 4. rewrite H2.
  cbv beta iota.
  unfold mbind, io_bind, lift, open_wb, urlopen, write.
  destruct (pick_colour n m) as [colour|e]; [|reflexivity].
  destruct (format _ _) as [url|e]; [|reflexivity].
  rewrite Hw. destruct (can_write E2 "admitted.svg"); [|reflexivity].
  cbn [files sent]. rewrite Hu. reflexivity.
Qed.

Lemma main_ignores_n_qed_witness :
  let E1 := Examples.online Examples.grep_two_qed in
  let E2 := Examples.online Examples.grep_nothing in
  collect E1 "." = Ok (0, 0, 2) ∧ collect E2 "." = Ok (0, 0, 0)
  ∧ main E1 "." Examples.old_badge = main E2 "." Examples.old_badge.
Proof.
  intros E1 E2.
  assert (collect E1 "." = Ok (0, 0, 2)) as H1 by reflexivity.
  assert (collect E2 "." = Ok (0, 0, 0)) as H2 by reflexivity.
  split; [exact H1|]. split; [exact H2|].
  exact (main_ignores_n_qed E1 E2 "." Examples.old_badge 0 0 2 0 H1 H2
           (λ _, eq_refl) eq_refl).
Defined.

(** C10: [main] opens admitted.svg for writing, which creates or
    truncates it, before it sends the request: when the fetch raises, the
    exception leaves [main], the request has been sent and admitted.svg
    exists and is empty, so the files are not as they were unless
    admitted.svg was already there and empty. *)
Theorem main_truncates_before_fetch E d w (n m q : Z) (colour : string) (e : exn) :
  collect E d = Ok (n, m, q) → pick_colour n m = Ok colour →
  can_write E "admitted.svg" = true →
  urlopen_read E (mk_request (badge_url n colour) [("User-Agent", "Mozilla/5.0")]%string)
    = Raise e →
  (main E d w).1 = Raise e
  ∧ files (main E d w).2 = <["admitted.svg"%string := []]> (files w)
  ∧ files (main E d w).2 !! "admitted.svg"%string = Some []
  ∧ (files w !! "admitted.svg"%string ≠ Some [] → files (main E d w).2 ≠ files w).
Proof.
  intros Hc Hp Hw Hu.
  rewrite (main_fetch_fails E d w n m q colour e Hc Hp Hw Hu). cbn [fst snd files].
  split; [reflexivity|]. split; [reflexivity|].
  split; [apply lookup_insert_eq|].
  intros Hne Heq. apply Hne. rewrite <- Heq. apply lookup_insert_eq.
Qed.

Lemma main_truncates_before_fetch_witness :
  let E := Examples.offline Examples.grep_nothing in
  collect E "." = Ok (0, 0, 0) ∧ pick_colour 0 0 = Ok "brightgreen"%string
  ∧ can_write E "admitted.svg" = true
  ∧ (main E "." Examples.old_badge).1 = Raise URLError
  ∧ files (main E "." Examples.old_badge).2 !! "admitted.svg"%string = Some []
  ∧ files (main E "." Examples.old_badge).2 ≠ files Examples.old_badge.
Proof.
  intros E.
  assert (collect E "." = Ok (0, 0, 0)) as H1 by reflexivity.
  assert (pick_colour 0 0 = Ok "brightgreen"%string) as H2 by (vm_compute; reflexivity).
  assert (can_write E "admitted.svg" = true) as H3 by reflexivity.
  assert (urlopen_read E (mk_request (badge_url 0 "brightgreen")
                            [("User-Agent", "Mozilla/5.0")]%string)
          = Raise URLError) as H4 by reflexivity.
  pose proof (main_truncates_before_fetch E "." Examples.old_badge 0 0 0
                "brightgreen" URLError H1 H2 H3 H4) as (R1 & _ & R3 & R4).
  split; [exact H1|]. split; [exact H2|]. split; [exact H3|].
  split; [exact R1|]. split; [exact R3|].
  apply R4. vm_compute. discriminate.
Defined.
End Main.

(** * Further properties *)

(** ** Lines of output *)

Section Lines.

Lemma byte_eqb_neq (a b : byte) : a ≠ b → Byte.eqb a b = false.
Proof.
  intros H. destruct (Byte.eqb a b) eqn:E; [|reflexivity].
  exfalso. apply H. apply Byte.byte_dec_bl. exact E.
Qed.

(** A line without line ends, then a line feed: the line is reported and
    the search goes on behind it. *)
Lemma splitlines_from_line (l cur rest : bytes) :
  Forall inner_byte l →
  splitlines_from cur (l ++ x0a :: rest) = (rev cur ++ l) :: splitlines_from [] rest.
Proof.
  intros Hl. revert cur. induction Hl as [|b l [Hb1 Hb2] _ IH]; intros cur.
  - cbn. rewrite app_nil_r. reflexivity.
  - cbn [app splitlines_from].
    rewrite (byte_eqb_neq b x0a Hb1), (byte_eqb_neq b x0d Hb2).
    rewrite IH. cbn [rev]. rewrite <- app_assoc. reflexivity.
Qed.

Lemma splitlines_printed (ls : list bytes) :
  Forall (Forall inner_byte) ls → splitlines (printed ls) = ls.
Proof.
  unfold splitlines, printed. induction 1 as [|l ls Hl _ IH]; [reflexivity|].
  cbn [map concat]. rewrite <- app_assoc. cbn [app].
  rewrite (splitlines_from_line l [] _ Hl), IH. reflexivity.
Qed.

(** A line that has begun is reported. *)
Lemma splitlines_from_begun (cur bs : bytes) :
  cur ≠ [] → splitlines_from cur bs ≠ [].
Proof.
  revert cur. induction bs as [|b rest IH]; intros cur Hc.
  - cbn. destruct cur; [contradiction|discriminate].
  - cbn [splitlines_from]. destruct (Byte.eqb b x0a); [discriminate|].
    destruct (Byte.eqb b x0d).
    + destruct rest as [|b' rest']; [discriminate|].
      destruct (Byte.eqb b' x0a); discriminate.
    + apply IH. discriminate.
Qed.

Lemma splitlines_nil_iff (bs : bytes) : splitlines bs = [] ↔ bs = [].
Proof.
  split; [|intros ->; reflexivity].
  unfold splitlines. destruct bs as [|b rest]; [reflexivity|].
  cbn [splitlines_from]. destruct (Byte.eqb b x0a); [discriminate|].
  destruct (Byte.eqb b x0d).
  - destruct rest as [|b' rest']; [discriminate|].
    destruct (Byte.eqb b' x0a); discriminate.
  - intros H. exfalso. revert H. apply splitlines_from_begun. discriminate.
Qed.

Lemma len_zero_iff {A : Type} (l : list A) : len l = 0 ↔ l = [].
Proof.
  unfold len. destruct l; cbn [length]; split; intros H;
    try reflexivity; try discriminate; lia.
Qed.

Lemma byte_eqb_false (a b : byte) : Byte.eqb a b = false → a ≠ b.
Proof.
  intros E ->. rewrite (Byte.byte_dec_lb eq_refl) in E. discriminate.
Qed.

(** No reported line holds a line end.  The recursion of
    [splitlines_from] skips two bytes at CR LF, hence the induction on a
    bound of the length. *)
Lemma splitlines_from_inner (k : nat) (bs cur : bytes) :
  (length bs <= k)%nat → Forall inner_byte cur →
  Forall (Forall inner_byte) (splitlines_from cur bs).
Proof.
  revert bs cur. induction k as [|k IH]; intros bs cur Hk Hc.
  - destruct bs; [|cbn in Hk; lia].
    cbn. destruct cur; constructor; [|constructor].
    apply Forall_rev. exact Hc.
  - destruct bs as [|b rest].
    { cbn. destruct cur; constructor; [|constructor].
      apply Forall_rev. exact Hc. }
    cbn [length] in Hk. cbn [splitlines_from].
    pose proof (Forall_rev Hc) as Hrev.
    destruct (Byte.eqb b x0a) eqn:Ea.
    { constructor; [exact Hrev|]. apply IH; [lia|constructor]. }
    destruct (Byte.eqb b x0d) eqn:Ed.
    + destruct rest as [|b' rest'].
      { constructor; [exact Hrev|constructor]. }
      cbn [length] in Hk.
      destruct (Byte.eqb b' x0a);
        (constructor; [exact Hrev|]); apply IH; cbn [length]; try lia; constructor.
    + apply IH; [lia|]. constructor; [|exact Hc].
      split; [exact (byte_eqb_false _ _ Ea)|exact (byte_eqb_false _ _ Ed)].
Qed.

(** There are at most as many lines as bytes, one more when a line has
    begun. *)
Lemma splitlines_from_length (k : nat) (bs cur : bytes) :
  (length bs <= k)%nat →
  (length (splitlines_from cur bs) <= length bs + (if cur is [] then 0 else 1))%nat.
Proof.
  revert bs cur. induction k as [|k IH]; intros bs cur Hk.
  - destruct bs; [|cbn in Hk; lia]. cbn. destruct cur; cbn; lia.
  - destruct bs as [|b rest]; [cbn; destruct cur; cbn; lia|].
    cbn [length] in Hk. cbn [splitlines_from].
    destruct (Byte.eqb b x0a).
    { pose proof (IH rest [] ltac:(lia)). cbn [length] in *. lia. }
    destruct (Byte.eqb b x0d).
    + destruct rest as [|b' rest']; [cbn; lia|].
      cbn [length] in Hk.
      destruct (Byte.eqb b' x0a).
      * pose proof (IH rest' [] ltac:(lia)). cbn [length] in *. lia.
      * pose proof (IH (b' :: rest') [] ltac:(cbn [length]; lia)).
        cbn [length] in *. lia.
    + pose proof (IH rest (b :: cur) ltac:(lia)). cbn [length] in *. lia.
Qed.

Lemma splitlines_length (bs : bytes) : 0 <= len (splitlines bs) <= len bs.
Proof.
  unfold len, splitlines.
  pose proof (splitlines_from_length (length bs) bs [] ltac:(lia)) as H.
  cbv beta iota in H. lia.
Qed.

(** [bytes.splitlines()] reports only lines without LF and CR. *)
Theorem splitlines_lines_have_no_line_end (bs l : bytes) :
  In l (splitlines bs) → ¬ In x0a l ∧ ¬ In x0d l.
Proof.
  intros Hin.
  pose proof (splitlines_from_inner (length bs) bs [] ltac:(lia) ltac:(constructor)) as H.
  rewrite Forall_forall in H. specialize (H l).
  assert (Forall inner_byte l) as Hl.
  { apply H. apply list_elem_of_In. exact Hin. }
  rewrite Forall_forall in Hl.
  split; intros Hb; apply list_elem_of_In in Hb; destruct (Hl _ Hb); congruence.
Qed.

Lemma splitlines_lines_have_no_line_end_witness :
  In [x62] (splitlines [x61; x0d; x0a; x62; x0a])
  ∧ ¬ In x0a [x62] ∧ ¬ In x0d [x62].
Proof.
  assert (In [x62] (splitlines [x61; x0d; x0a; x62; x0a])) as H
    by (right; left; reflexivity).
  exact (conj H (splitlines_lines_have_no_line_end _ _ H)).
Defined.

End Lines.

(** ** What collect counts *)

Section Counts.
Variable E : env.
Variable d : string.

(** When the three searches print their matching lines, none of which
    holds a CR, [collect] returns the numbers of matching lines. *)
Theorem collect_counts_matching_lines (la lt lq : list bytes) :
  Forall (Forall inner_byte) la → Forall (Forall inner_byte) lt →
  Forall (Forall inner_byte) lq →
  check_output E ["grep"; "-r"; "-E"; "Admitted"; d]%string = Ok (printed la) →
  check_output E ["grep"; "-r"; "-E"; "Theorem|Lemma|Remark"; d]%string = Ok (printed lt) →
  check_output E ["grep"; "-r"; "-E"; "Qed|Defined"; d]%string = Ok (printed lq) →
  collect E d = Ok (len la, len lt, len lq).
Proof.
  intros Ha Ht Hq Ea Et Eq. rewrite collect_counts, Ea, Et, Eq.
  rewrite !splitlines_printed by assumption. reflexivity.
Qed.

(** A count is 0 exactly when its search raised or printed nothing. *)
Theorem collect_zero_iff_nothing_found (n_admitted n_theorems n_qed : Z) :
  collect E d = Ok (n_admitted, n_theorems, n_qed) →
  (n_admitted = 0 ↔
     ∀ out, check_output E ["grep"; "-r"; "-E"; "Admitted"; d]%string = Ok out → out = [])
  ∧ (n_theorems = 0 ↔
     ∀ out, check_output E ["grep"; "-r"; "-E"; "Theorem|Lemma|Remark"; d]%string = Ok out
            → out = [])
  ∧ (n_qed = 0 ↔
     ∀ out, check_output E ["grep"; "-r"; "-E"; "Qed|Defined"; d]%string = Ok out → out = []).
Proof.
  rewrite collect_counts. intros H. injection H as <- <- <-.
  repeat split.
  all: try (intros H0 out Hout; rewrite Hout in H0;
            apply splitlines_nil_iff, len_zero_iff; exact H0).
  all: intros Hall; destruct (check_output E _) as [out|e]; [|reflexivity];
       rewrite (Hall out eq_refl); reflexivity.
Qed.

(** No count is negative, and none exceeds the number of bytes that its
    search printed. *)
Theorem collect_counts_bounded (n_admitted n_theorems n_qed : Z) :
  collect E d = Ok (n_admitted, n_theorems, n_qed) →
  (0 <= n_admitted ∧ 0 <= n_theorems ∧ 0 <= n_qed)
  ∧ (∀ out, check_output E ["grep"; "-r"; "-E"; "Admitted"; d]%string = Ok out
            → n_admitted <= len out)
  ∧ (∀ out, check_output E ["grep"; "-r"; "-E"; "Theorem|Lemma|Remark"; d]%string = Ok out
            → n_theorems <= len out)
  ∧ (∀ out, check_output E ["grep"; "-r"; "-E"; "Qed|Defined"; d]%string = Ok out
            → n_qed <= len out).
Proof.
  intros H. split; [exact (collect_nonneg E d _ _ _ H)|].
  rewrite collect_counts in H. injection H as <- <- <-.
  repeat split; intros out ->; apply splitlines_length.
Qed.

End Counts.

Lemma collect_counts_matching_lines_witness :
  let E := Examples.online Examples.grep_small_project in
  let la := [list_byte_of_string "b.v:Admitted."] in
  let lt := [list_byte_of_string "a.v:Lemma a : True.";
             list_byte_of_string "b.v:Theorem b : False."] in
  let lq := [list_byte_of_string "a.v:Qed."] in
  collect E "." = Ok (len la, len lt, len lq) ∧ (len la, len lt, len lq) = (1, 2, 1).
Proof.
  intros E la lt lq. split; [|reflexivity].
  apply (collect_counts_matching_lines E "." la lt lq).
  - repeat constructor; discriminate.
  - repeat constructor; discriminate.
  - repeat constructor; discriminate.
  - reflexivity.
  - reflexivity.
  - reflexivity.
Defined.

Lemma collect_zero_iff_nothing_found_witness :
  let E := Examples.online Examples.grep_two_qed in
  collect E "." = Ok (0, 0, 2)
  ∧ (0 = 0 ↔ ∀ out, check_output E ["grep"; "-r"; "-E"; "Admitted"; "."]%string = Ok out
                    → out = []).
Proof.
  intros E. assert (collect E "." = Ok (0, 0, 2)) as H by reflexivity.
  exact (conj H (proj1 (collect_zero_iff_nothing_found E "." 0 0 2 H))).
Defined.

Lemma collect_counts_bounded_witness :
  let E := Examples.online Examples.grep_two_qed in
  collect E "." = Ok (0, 0, 2) ∧ (0 <= 0 ∧ 0 <= 0 ∧ 0 <= 2).
Proof.
  intros E. assert (collect E "." = Ok (0, 0, 2)) as H by reflexivity.
  exact (conj H (proj1 (collect_counts_bounded E "." 0 0 2 H))).
Defined.

(** ** More on pick_colour *)

Section Tiers.
Import PyFloat PyFloatFacts.

(** [pick_colour] raises exactly when the theorem count is too large for
    a double, and then it raises [OverflowError]. *)
Theorem pick_colour_raises_iff_too_large (n m : Z) :
  0 <= m →
  ((∃ e, pick_colour n m = Raise e) ↔ 2 ^ 1024 - 2 ^ 970 <= m)
  ∧ (∀ e, pick_colour n m = Raise e → e = OverflowError).
Proof.
  intros Hm.
  destruct (Z.lt_ge_cases m (2 ^ 1024 - 2 ^ 970)) as [Hlt|Hge].
  - rewrite pick_colour_convertible by lia. split.
    + split; [intros [e He]; discriminate|lia].
    + intros e He. discriminate.
  - rewrite (pick_colour_overflow n m Hge). split.
    + split; [intros _; exact Hge|intros _; eexists; reflexivity].
    + intros e He. congruence.
Qed.

Lemma pick_colour_raises_iff_too_large_witness :
  0 <= 7
  ∧ ((∃ e, pick_colour 1 7 = Raise e) ↔ 2 ^ 1024 - 2 ^ 970 <= 7).
Proof.
  assert (0 <= 7) as H by lia.
  exact (conj H (proj1 (pick_colour_raises_iff_too_large 1 7 H))).
Defined.

(** The badge is bright green exactly when nothing is admitted (and the
    theorem count converts to a double). *)
Theorem pick_colour_brightgreen_iff (n m : Z) :
  0 <= n → 0 <= m →
  (pick_colour n m = Ok "brightgreen"%string ↔ n = 0 ∧ m < 2 ^ 1024 - 2 ^ 970).
Proof.
  intros Hn Hm.
  destruct (Z.lt_ge_cases m (2 ^ 1024 - 2 ^ 970)) as [Hlt|Hge].
  - rewrite pick_colour_convertible by lia.
    pose proof (round_pos_nonneg m Hm) as HM.
    pose proof (round_pos_nonneg (3602879701896397 * round_pos m) ltac:(lia)) as HR.
    destruct (Z.ltb_spec (round_pos (3602879701896397 * round_pos m)) (n * 2 ^ 54)).
    { split; [discriminate|]. intros [-> _]. lia. }
    destruct (Z.ltb_spec (round_pos (3602879701896397 * round_pos m)) (n * 2 ^ 55)).
    { split; [discriminate|]. intros [-> _]. lia. }
    destruct (Z.eqb_spec n 0); split; try discriminate; try tauto; intros; lia.
  - rewrite (pick_colour_overflow n m Hge). split; [discriminate|]. lia.
Qed.

Lemma pick_colour_brightgreen_iff_witness :
  0 <= 2 ∧ 0 <= 100
  ∧ (pick_colour 2 100 = Ok "brightgreen"%string ↔ 2 = 0 ∧ 100 < 2 ^ 1024 - 2 ^ 970).
Proof.
  assert (0 <= 2) as H1 by lia. assert (0 <= 100) as H2 by lia.
  exact (conj H1 (conj H2 (pick_colour_brightgreen_iff 2 100 H1 H2))).
Defined.

(** More admitted proofs never give a better colour: with the same
    theorem count, red stays red, orange stays orange or becomes red, and
    what is bright green was bright green before. *)
Theorem pick_colour_monotone_in_admitted (n n' m : Z) :
  0 <= n <= n' → 0 <= m < 2 ^ 1024 - 2 ^ 970 →
  (pick_colour n m = Ok "red"%string → pick_colour n' m = Ok "red"%string)
  ∧ (pick_colour n m = Ok "orange"%string →
     pick_colour n' m = Ok "orange"%string ∨ pick_colour n' m = Ok "red"%string)
  ∧ (pick_colour n' m = Ok "brightgreen"%string →
     pick_colour n m = Ok "brightgreen"%string)
  ∧ (pick_colour n' m = Ok "yellow"%string →
     pick_colour n m = Ok "yellow"%string ∨ pick_colour n m = Ok "brightgreen"%string).
Proof.
  intros Hn Hm. rewrite !pick_colour_convertible by lia.
  set (R := round_pos (3602879701896397 * round_pos m)).
  destruct (Z.ltb_spec R (n * 2 ^ 54)); destruct (Z.ltb_spec R (n' * 2 ^ 54));
    try lia;
    destruct (Z.ltb_spec R (n * 2 ^ 55)); destruct (Z.ltb_spec R (n' * 2 ^ 55));
    try lia;
    destruct (Z.eqb_spec n 0); destruct (Z.eqb_spec n' 0); try lia;
    repeat split; intros; try discriminate; auto.
Qed.

Lemma pick_colour_monotone_in_admitted_witness :
  0 <= 3 <= 7 ∧ 0 <= 20 < 2 ^ 1024 - 2 ^ 970
  ∧ (pick_colour 3 20 = Ok "orange"%string →
     pick_colour 7 20 = Ok "orange"%string ∨ pick_colour 7 20 = Ok "red"%string).
Proof.
  assert (0 <= 3 <= 7) as H1 by lia.
  assert (0 <= 20 < 2 ^ 1024 - 2 ^ 970) as H2
    by (vm_compute; split; [discriminate|reflexivity]).
  exact (conj H1 (conj H2 (proj1 (proj2 (pick_colour_monotone_in_admitted 3 7 20 H1 H2))))).
Defined.




(** Below [3 * 2 ^ 51] the floating-point rule of the code and the rule on
    exact ratios (red above 1/5, orange above 1/10, bright green at 0,
    yellow otherwise) choose the same colour. *)
Theorem pick_colour_agrees_with_exact_rule (n m : Z) :
  0 <= n → 0 <= m < 3 * 2 ^ 51 →
  pick_colour n m = Ok (pick_colour_exact n m).
Proof. exact (pick_colour_refines_exact n m). Qed.

Lemma pick_colour_agrees_with_exact_rule_witness :
  0 <= 2 ∧ 0 <= 15 < 3 * 2 ^ 51 ∧ pick_colour 2 15 = Ok (pick_colour_exact 2 15).
Proof.
  assert (0 <= 2) as H1 by lia.
  assert (0 <= 15 < 3 * 2 ^ 51) as H2 by lia.
  exact (conj H1 (conj H2 (pick_colour_agrees_with_exact_rule 2 15 H1 H2))).
Defined.

End Tiers.

(** ** More on main *)

Section Runs.
Implicit Types (E : env) (d : string) (w : world).

Lemma main_pick_colour_raises E d w (n m q : Z) (e : exn) :
  collect E d = Ok (n, m, q) → pick_colour n m = Raise e →
  main E d w = (Raise e, w).
Proof.
  intros Hc Hp. unfold main.
  unfold mbind at 1, io_bind at 1, lift at 1. rewrite Hc. cbv beta iota.
  unfold mbind at 1, io_bind at 1, lift at 1. rewrite Hp. reflexivity.
Qed.

(** The four ways a run of [main] can go. *)
Lemma main_cases E d w :
  ∃ n m q : Z, collect E d = Ok (n, m, q) ∧
    ((∃ e, pick_colour n m = Raise e ∧ main E d w = (Raise e, w))
     ∨ ∃ colour, pick_colour n m = Ok colour ∧
         ((can_write E "admitted.svg" = false
           ∧ main E d w = (Raise PermissionError, w))
          ∨ (can_write E "admitted.svg" = true ∧ ∃ e,
               urlopen_read E (mk_request (badge_url n colour)
                                 [("User-Agent", "Mozilla/5.0")]%string) = Raise e
               ∧ main E d w =
                   (Raise e,
                    mk_world (<["admitted.svg"%string := []]> (files w))
                      (sent w ++ [mk_request (badge_url n colour)
                                    [("User-Agent", "Mozilla/5.0")]%string])))
          ∨ (can_write E "admitted.svg" = true ∧ ∃ body,
               urlopen_read E (mk_request (badge_url n colour)
                                 [("User-Agent", "Mozilla/5.0")]%string) = Ok body
               ∧ main E d w =
                   (Ok tt,
                    mk_world (<["admitted.svg"%string := body]> (files w))
                      (sent w ++ [mk_request (badge_url n colour)
                                    [("User-Agent", "Mozilla/5.0")]%string]))))).
Proof.
  destruct (collect E d) as [[[n m] q]|e] eqn:Hc.
  2: { rewrite collect_counts in Hc. discriminate. }
  exists n, m, q. split; [reflexivity|].
  destruct (pick_colour n m) as [colour|e] eqn:Hp.
  2: { left. exists e. split; [reflexivity|].
       exact (main_pick_colour_raises E d w n m q e Hc Hp). }
  right. exists colour. split; [reflexivity|].
  destruct (can_write E "admitted.svg") eqn:Hw.
  2: { left. split; [reflexivity|].
       exact (main_not_writable E d w n m q colour Hc Hp Hw). }
  right.
  destruct (urlopen_read E (mk_request (badge_url n colour)
              [("User-Agent", "Mozilla/5.0")]%string)) as [body|e] eqn:Hu.
  - right. split; [reflexivity|]. exists body. split; [reflexivity|].
    exact (main_fetch_succeeds E d w n m q colour body Hc Hp Hw Hu).
  - left. split; [reflexivity|]. exists e. split; [reflexivity|].
    exact (main_fetch_fails E d w n m q colour e Hc Hp Hw Hu).
Qed.

(** [main] changes no file but admitted.svg, however the run ends. *)
Theorem main_touches_only_badge E d w (path : string) :
  path ≠ "admitted.svg"%string →
  files (main E d w).2 !! path = files w !! path.
Proof.
  intros Hp.
  destruct (main_cases E d w) as (n & m & q & _ & H).
  destruct H as [(e & _ & ->)|(colour & _ & [(_ & ->)|[(_ & e & _ & ->)|(_ & body & _ & ->)]])];
    cbn [snd files]; try reflexivity; apply lookup_insert_ne; congruence.
Qed.

Lemma main_touches_only_badge_witness :
  "notes.txt"%string ≠ "admitted.svg"%string
  ∧ files (main (Examples.online Examples.grep_nothing) "." Examples.old_badge).2
      !! "notes.txt"%string
    = files Examples.old_badge !! "notes.txt"%string.
Proof.
  assert ("notes.txt"%string ≠ "admitted.svg"%string) as H by discriminate.
  exact (conj H (main_touches_only_badge _ "." Examples.old_badge "notes.txt" H)).
Defined.

(** When [main] returns normally, the badge service answered the one
    request that was sent, and admitted.svg holds that answer, byte for
    byte. *)
Theorem main_success_saves_answer E d w :
  (main E d w).1 = Ok tt →
  ∃ (n m q : Z) (colour : string) (body : bytes),
    collect E d = Ok (n, m, q) ∧ pick_colour n m = Ok colour
    ∧ urlopen_read E (mk_request (badge_url n colour)
                        [("User-Agent", "Mozilla/5.0")]%string) = Ok body
    ∧ files (main E d w).2 = <["admitted.svg"%string := body]> (files w)
    ∧ sent (main E d w).2
      = sent w ++ [mk_request (badge_url n colour)
                     [("User-Agent", "Mozilla/5.0")]%string].
Proof.
  destruct (main_cases E d w) as (n & m & q & Hc & H).
  destruct H as [(e & _ & ->)|(colour & Hp & [(_ & ->)|[(_ & e & _ & ->)|(_ & body & Hu & ->)]])];
    cbn [fst snd files sent]; try discriminate.
  intros _. exists n, m, q, colour, body. auto.
Qed.

Lemma main_success_saves_answer_witness :
  let E := Examples.online Examples.grep_small_project in
  (main E "." Examples.old_badge).1 = Ok tt
  ∧ ∃ (n m q : Z) (colour : string) (body : bytes),
      collect E "." = Ok (n, m, q) ∧ pick_colour n m = Ok colour
      ∧ urlopen_read E (mk_request (badge_url n colour)
                          [("User-Agent", "Mozilla/5.0")]%string) = Ok body
      ∧ files (main E "." Examples.old_badge).2
        = <["admitted.svg"%string := body]> (files Examples.old_badge)
      ∧ sent (main E "." Examples.old_badge).2
        = sent Examples.old_badge
          ++ [mk_request (badge_url n colour) [("User-Agent", "Mozilla/5.0")]%string].
Proof.
  intros E.
  assert ((main E "." Examples.old_badge).1 = Ok tt) as H by (vm_compute; reflexivity).
  exact (conj H (main_success_saves_answer E "." Examples.old_badge H)).
Defined.


(** When admitted.svg cannot be opened for writing, [main] fails before
    it sends anything: no request, no change of the files. *)
Theorem main_not_writable_no_effect E d w :
  can_write E "admitted.svg" = false →
  (main E d w).2 = w ∧ ∃ e, (main E d w).1 = Raise e.
Proof.
  intros Hw.
  destruct (main_cases E d w) as (n & m & q & _ & H).
  destruct H as [(e & _ & ->)|(colour & _ & [(_ & ->)|[(Hw' & _)|(Hw' & _)]])];
    try congruence; cbn [fst snd]; eauto.
Qed.

Lemma main_not_writable_no_effect_witness :
  let E := mk_env Examples.grep_small_project (λ _, Ok Examples.svg) (λ _, false) in
  can_write E "admitted.svg" = false
  ∧ (main E "." Examples.old_badge).2 = Examples.old_badge.
Proof.
  intros E. assert (can_write E "admitted.svg" = false) as H by reflexivity.
  exact (conj H (proj1 (main_not_writable_no_effect E "." Examples.old_badge H))).
Defined.

(** Running [main] again in the same environment leaves the files as the
    first run left them. *)
Theorem main_again_same_files E d w :
  files (main E d (main E d w).2).2 = files (main E d w).2.
Proof.
  destruct (main_cases E d w) as (n & m & q & Hc & H).
  destruct H as [(e & Hp & Hm)|(colour & Hp & [(Hw & Hm)|[(Hw & e & Hu & Hm)|(Hw & body & Hu & Hm)]])];
    rewrite Hm; cbn [snd].
  - rewrite (main_pick_colour_raises E d _ n m q e Hc Hp). reflexivity.
  - rewrite (main_not_writable E d _ n m q colour Hc Hp Hw). reflexivity.
  - rewrite (main_fetch_fails E d _ n m q colour e Hc Hp Hw Hu).
    cbn [snd files]. apply insert_insert_eq.
  - rewrite (main_fetch_succeeds E d _ n m q colour body Hc Hp Hw Hu).
    cbn [snd files]. apply insert_insert_eq.
Qed.




End Runs.

(** ** The badge URL *)

Section Url.

Lemma append_cons (c : ascii) (a b : string) :
  String c a +:+ b = String c (a +:+ b).
Proof. reflexivity. Qed.

Lemma append_nil (b : string) : EmptyString +:+ b = b.
Proof. reflexivity. Qed.

Lemma append_cancel_l (p a b : string) : p +:+ a = p +:+ b → a = b.
Proof.
  induction p as [|c p IH]; rewrite ?append_nil, ?append_cons; [auto|].
  intros H. injection H as H. auto.
Qed.

Lemma length_append (a b : string) :
  String.length (a +:+ b) = (String.length a + String.length b)%nat.
Proof.
  induction a as [|c a IH]; [reflexivity|].
  rewrite append_cons. cbn [String.length]. rewrite IH. reflexivity.
Qed.

Lemma append_cancel_r (a b s : string) : a +:+ s = b +:+ s → a = b.
Proof.
  revert b. induction a as [|c a IH]; intros [|c' b] H;
    rewrite ?append_nil, ?append_cons in H.
  - reflexivity.
  - exfalso. apply (f_equal String.length) in H. cbn [String.length] in H.
    rewrite length_append in H. lia.
  - exfalso. apply (f_equal String.length) in H. cbn [String.length] in H.
    rewrite length_append in H. lia.
  - injection H as -> H. f_equal. auto.
Qed.

(** Two strings without a dash, each followed by a dash: the first dash
    is at the same place. *)
Lemma first_dash (a a' r r' : string) :
  (∀ pre post, a ≠ pre +:+ String "-" post) →
  (∀ pre post, a' ≠ pre +:+ String "-" post) →
  a +:+ String "-" r = a' +:+ String "-" r' → a = a' ∧ r = r'.
Proof.
  revert a'. induction a as [|c a IH]; intros [|c' a'] Ha Ha' H;
    rewrite ?append_nil, ?append_cons in H.
  - injection H as ->. auto.
  - injection H as <- _. exfalso. apply (Ha' EmptyString a'). reflexivity.
  - injection H as -> _. exfalso. apply (Ha EmptyString a). reflexivity.
  - injection H as -> H.
    destruct (IH a') as [-> ->]; auto.
    + intros pre post ->. apply (Ha (String c' pre) post). reflexivity.
    + intros pre post ->. apply (Ha' (String c' pre) post). reflexivity.
Qed.

Lemma digits_no_dash (u : Decimal.uint) (pre post : string) :
  NilEmpty.string_of_uint u ≠ pre +:+ String "-" post.
Proof.
  revert pre. induction u; intros [|c pre] H;
    rewrite ?append_nil, ?append_cons in H; cbn [NilEmpty.string_of_uint] in H;
    try discriminate; injection H as _ H; eapply IHu; exact H.
Qed.

(** The decimal form of a count holds no dash. *)
Lemma str_no_dash (n : Z) (pre post : string) :
  0 <= n → str n ≠ pre +:+ String "-" post.
Proof.
  intros Hn. unfold str. destruct n as [|p|p]; [| |lia].
  - destruct pre as [|c [|c' pre]]; discriminate.
  - cbn [Z.to_int NilZero.string_of_int]. unfold NilZero.string_of_uint.
    destruct (Pos.to_uint p) eqn:E; try apply digits_no_dash.
    destruct pre as [|c [|c' pre]]; discriminate.
Qed.

(** [str] loses nothing: the integer can be read back. *)
Lemma str_inj (n n' : Z) : str n = str n' → n = n'.
Proof.
  unfold str. intros H.
  assert (∀ z, NilZero.int_of_string (NilZero.string_of_int (Z.to_int z))
               = Some (Z.to_int z)) as Hisi.
  { intros z. apply NilZero.isi; destruct z as [|p|p]; cbn; try discriminate;
      intros [= E]; exact (DecimalPos.Unsigned.to_uint_nonnil p E). }
  apply (f_equal NilZero.int_of_string) in H. rewrite !Hisi in H.
  injection H as H. apply (f_equal Z.of_int) in H.
  rewrite !DecimalZ.of_to in H. exact H.
Qed.

(** The URL that [main] builds determines the admitted count and the
    colour: different counts or colours give different URLs. *)
Theorem badge_url_determines_count_and_colour (n n' : Z) (colour colour' : string) :
  0 <= n → 0 <= n' →
  format "https://img.shields.io/badge/admitted%20proofs-{}-{}?style=flat"
         [str n; colour]
  = format "https://img.shields.io/badge/admitted%20proofs-{}-{}?style=flat"
           [str n'; colour'] →
  n = n' ∧ colour = colour'.
Proof.
  intros Hn Hn' H. rewrite !format_badge_url in H. injection H as H.
  unfold badge_url in H. apply append_cancel_l in H.
  change ("-" +:+ colour +:+ "?style=flat")%string
    with (String "-" (colour +:+ "?style=flat")) in H.
  change ("-" +:+ colour' +:+ "?style=flat")%string
    with (String "-" (colour' +:+ "?style=flat")) in H.
  apply first_dash in H.
  - destruct H as [Hs Hc]. split; [exact (str_inj n n' Hs)|].
    exact (append_cancel_r _ _ _ Hc).
  - intros pre post. apply str_no_dash. exact Hn.
  - intros pre post. apply str_no_dash. exact Hn'.
Qed.

Lemma badge_url_determines_count_and_colour_witness :
  0 <= 12 ∧
  (format "https://img.shields.io/badge/admitted%20proofs-{}-{}?style=flat"
          [str 12; "red"%string]
   = format "https://img.shields.io/badge/admitted%20proofs-{}-{}?style=flat"
            [str 12; "red"%string])
  ∧ 12 = 12 ∧ "red"%string = "red"%string.
Proof.
  assert (0 <= 12) as H by lia.
  exact (conj H (conj eq_refl
    (badge_url_determines_count_and_colour 12 12 "red" "red" H H eq_refl))).
Defined.

End Url.

(** ** Failing searches and missing arguments *)

Section Silent.
Import PyFloat PyFloatFacts.
Implicit Types (E : env) (d : string) (w : world).

Lemma pick_colour_zero_convertible (m : Z) :
  0 <= m < 2 ^ 1024 - 2 ^ 970 → pick_colour 0 m = Ok "brightgreen"%string.
Proof.
  intros Hm. rewrite pick_colour_convertible by assumption.
  pose proof (round_pos_nonneg m ltac:(lia)) as HM.
  pose proof (round_pos_nonneg (3602879701896397 * round_pos m) ltac:(lia)) as HR.
  rewrite !Z.mul_0_l.
  destruct (Z.ltb_spec (round_pos (3602879701896397 * round_pos m)) 0); [lia|].
  reflexivity.
Qed.

(** When the search for admitted proofs fails, for instance because there
    is no [grep], [main] asks for the badge of a project without admitted
    proofs: count 0, bright green. *)
Theorem main_failed_search_shows_zero E d w (e : exn) (n m q : Z) :
  check_output E ["grep"; "-r"; "-E"; "Admitted"; d]%string = Raise e →
  collect E d = Ok (n, m, q) → m < 2 ^ 1024 - 2 ^ 970 →
  can_write E "admitted.svg" = true →
  n = 0
  ∧ sent (main E d w).2
    = sent w ++ [mk_request
                   "https://img.shields.io/badge/admitted%20proofs-0-brightgreen?style=flat"
                   [("User-Agent", "Mozilla/5.0")]%string].
Proof.
  intros He Hc Hm Hw.
  destruct (collect_nonneg E d n m q Hc) as (_ & Hm0 & _).
  assert (n = 0) as ->.
  { rewrite collect_counts, He in Hc. congruence. }
  split; [reflexivity|].
  pose proof (pick_colour_zero_convertible m ltac:(lia)) as Hp.
  destruct (urlopen_read E (mk_request (badge_url 0 "brightgreen")
              [("User-Agent", "Mozilla/5.0")]%string)) as [body|e'] eqn:Hu.
  - rewrite (main_fetch_succeeds E d w 0 m q "brightgreen" body Hc Hp Hw Hu).
    reflexivity.
  - rewrite (main_fetch_fails E d w 0 m q "brightgreen" e' Hc Hp Hw Hu).
    reflexivity.
Qed.

Lemma main_failed_search_shows_zero_witness :
  let E := Examples.online Examples.grep_missing in
  check_output E ["grep"; "-r"; "-E"; "Admitted"; "."]%string = Raise FileNotFoundError
  ∧ collect E "." = Ok (0, 0, 0)
  ∧ sent (main E "." Examples.empty_dir).2
    = [mk_request
         "https://img.shields.io/badge/admitted%20proofs-0-brightgreen?style=flat"
         [("User-Agent", "Mozilla/5.0")]%string].
Proof.
  intros E.
  assert (check_output E ["grep"; "-r"; "-E"; "Admitted"; "."]%string
          = Raise FileNotFoundError) as H1 by reflexivity.
  assert (collect E "." = Ok (0, 0, 0)) as H2 by reflexivity.
  assert (0 < 2 ^ 1024 - 2 ^ 970) as H3 by (vm_compute; reflexivity).
  assert (can_write E "admitted.svg" = true) as H4 by reflexivity.
  exact (conj H1 (conj H2 (proj2
    (main_failed_search_shows_zero E "." Examples.empty_dir _ 0 0 0 H1 H2 H3 H4)))).
Defined.


End Silent.
